(** * AI-Trader: the backtesting engine of [backtest.py]

    A shallow embedding of [BackTester] (entry, single exit, exit sweep,
    metrics and the bar loop) and the properties of its trade ledger, followed
    by the two strategies of [strategies/knn.py] and [BackTester.run].

    Numbers.  Balances, prices and amounts are Python ints and floats; they are
    modelled by the rationals [Q], i.e. by exact arithmetic (no rounding, no
    NaN, no infinities).  Python's true division [/] raises
    [ZeroDivisionError] on a zero divisor, for ints and floats alike, and that
    is kept.  Counters are Python ints that only count up from 0: [nat].

    Objects.  [self.trades] is a list of dicts and [_exit_trade] receives one of
    those dicts by reference and flips its ["exited"] entry in place.  A
    reference to a trade is modelled by the position of the trade in
    [self.trades]; the list only grows at its end, so positions are stable. *)

From stdpp Require Import base list strings.
From Stdlib Require Import QArith Qfield Lqa Qminmax.

Local Open Scope Q_scope.

(** ** Exceptions *)

Inductive exn : Set :=
| ZeroDivisionError
| TypeError.

Inductive result (A : Type) : Type :=
| Ok (a : A)
| Raise (e : exn).

Arguments Ok {A} a.
Arguments Raise {A} e.

#[global] Instance result_ret : MRet result := λ A a, Ok a.

#[global] Instance result_bind : MBind result := λ A B k m,
  match m with
  | Ok a => k a
  | Raise e => Raise e
  end.

(** [for x in xs: body(x)], stopping at the first exception. *)
Fixpoint for_each {X S : Type} (body : X → S → result S) (xs : list X) (s : S)
  : result S :=
  match xs with
  | [] => Ok s
  | x :: xs' => s' ← body x s; for_each body xs' s'
  end.

(** ** Python arithmetic on exact numbers *)

Definition Qlt_bool (x y : Q) : bool :=
  (Qnum x * QDen y <? Qnum y * QDen x)%Z.

(** [a / b] *)
Definition py_div (a b : Q) : result Q :=
  if Qeq_bool b 0 then Raise ZeroDivisionError else Ok (a / b).

(** [sum(xs)]: starts from 0 and adds from the left. *)
Definition py_sum (xs : list Q) : Q := fold_left Qplus xs 0.

Definition Q_of_nat (n : nat) : Q := inject_Z (Z.of_nat n).

(** ** Data *)

(** A row of the data frame.  The engine reads the columns [close] and
    [signal] only; a signal that is missing (NaN) is [None]. *)
Record Bar : Set := {
  close : Q;
  signal : option string;
}.

(** [{"price": _, "amount": _, "exited": _}] *)
Record Trade : Set := {
  price : Q;
  amount : Q;
  exited : bool;
}.

(** The class attributes of a strategy that [BackTester.__init__] copies. *)
Module Strategy.
Record t : Set := {
  stake_amount : Q;
  stop_loss : Q;
  take_profit : Q;
}.
End Strategy.

(** [strategies/knn.py] *)
Definition KNNStrategy : Strategy.t :=
  {| Strategy.stake_amount := 100;
     Strategy.stop_loss := 2 # 10000;
     Strategy.take_profit := 8 # 10000 |}.

Definition KNNEMARibbonStrategy : Strategy.t :=
  {| Strategy.stake_amount := 100;
     Strategy.stop_loss := 2 # 100;
     Strategy.take_profit := 5 # 100 |}.

(** The fields of a [BackTester] that the engine reads or writes.
    [breakeven_exits] is a ghost counter: it is not in the source and nothing
    reads it; it counts the executions of line 119 (a forced exit in the
    "No change" branch). *)
Record BackTester : Set := {
  balance : Q;
  stake_amount : Q;
  stop_loss : Q;
  take_profit : Q;
  trades : list Trade;
  last_action : option string;
  wins : list Q;
  losses : list Q;
  sl_hits : nat;
  tp_hits : nat;
  force_exits : nat;
  total_trades : nat;
  last_row : option Bar;
  breakeven_exits : nat;
}.

(** [BackTester.__init__] *)
Definition __init__ (strategy : Strategy.t) (starting_balance : Q) : BackTester :=
  {| balance := starting_balance;
     stake_amount := Strategy.stake_amount strategy;
     stop_loss := Strategy.stop_loss strategy;
     take_profit := Strategy.take_profit strategy;
     trades := [];
     last_action := None;
     wins := [];
     losses := [];
     sl_hits := 0;
     tp_hits := 0;
     force_exits := 0;
     total_trades := 0;
     last_row := None;
     breakeven_exits := 0 |}.

(** *** Field assignments *)

Definition set_balance (v : Q) (self : BackTester) : BackTester :=
  {| balance := v; stake_amount := stake_amount self;
     stop_loss := stop_loss self; take_profit := take_profit self;
     trades := trades self; last_action := last_action self;
     wins := wins self; losses := losses self; sl_hits := sl_hits self;
     tp_hits := tp_hits self; force_exits := force_exits self;
     total_trades := total_trades self; last_row := last_row self;
     breakeven_exits := breakeven_exits self |}.

Definition set_trades (v : list Trade) (self : BackTester) : BackTester :=
  {| balance := balance self; stake_amount := stake_amount self;
     stop_loss := stop_loss self; take_profit := take_profit self;
     trades := v; last_action := last_action self;
     wins := wins self; losses := losses self; sl_hits := sl_hits self;
     tp_hits := tp_hits self; force_exits := force_exits self;
     total_trades := total_trades self; last_row := last_row self;
     breakeven_exits := breakeven_exits self |}.

Definition set_last_action (v : option string) (self : BackTester) : BackTester :=
  {| balance := balance self; stake_amount := stake_amount self;
     stop_loss := stop_loss self; take_profit := take_profit self;
     trades := trades self; last_action := v;
     wins := wins self; losses := losses self; sl_hits := sl_hits self;
     tp_hits := tp_hits self; force_exits := force_exits self;
     total_trades := total_trades self; last_row := last_row self;
     breakeven_exits := breakeven_exits self |}.

Definition set_wins (v : list Q) (self : BackTester) : BackTester :=
  {| balance := balance self; stake_amount := stake_amount self;
     stop_loss := stop_loss self; take_profit := take_profit self;
     trades := trades self; last_action := last_action self;
     wins := v; losses := losses self; sl_hits := sl_hits self;
     tp_hits := tp_hits self; force_exits := force_exits self;
     total_trades := total_trades self; last_row := last_row self;
     breakeven_exits := breakeven_exits self |}.

Definition set_losses (v : list Q) (self : BackTester) : BackTester :=
  {| balance := balance self; stake_amount := stake_amount self;
     stop_loss := stop_loss self; take_profit := take_profit self;
     trades := trades self; last_action := last_action self;
     wins := wins self; losses := v; sl_hits := sl_hits self;
     tp_hits := tp_hits self; force_exits := force_exits self;
     total_trades := total_trades self; last_row := last_row self;
     breakeven_exits := breakeven_exits self |}.

Definition set_sl_hits (v : nat) (self : BackTester) : BackTester :=
  {| balance := balance self; stake_amount := stake_amount self;
     stop_loss := stop_loss self; take_profit := take_profit self;
     trades := trades self; last_action := last_action self;
     wins := wins self; losses := losses self; sl_hits := v;
     tp_hits := tp_hits self; force_exits := force_exits self;
     total_trades := total_trades self; last_row := last_row self;
     breakeven_exits := breakeven_exits self |}.

Definition set_tp_hits (v : nat) (self : BackTester) : BackTester :=
  {| balance := balance self; stake_amount := stake_amount self;
     stop_loss := stop_loss self; take_profit := take_profit self;
     trades := trades self; last_action := last_action self;
     wins := wins self; losses := losses self; sl_hits := sl_hits self;
     tp_hits := v; force_exits := force_exits self;
     total_trades := total_trades self; last_row := last_row self;
     breakeven_exits := breakeven_exits self |}.

Definition set_force_exits (v : nat) (self : BackTester) : BackTester :=
  {| balance := balance self; stake_amount := stake_amount self;
     stop_loss := stop_loss self; take_profit := take_profit self;
     trades := trades self; last_action := last_action self;
     wins := wins self; losses := losses self; sl_hits := sl_hits self;
     tp_hits := tp_hits self; force_exits := v;
     total_trades := total_trades self; last_row := last_row self;
     breakeven_exits := breakeven_exits self |}.

Definition set_total_trades (v : nat) (self : BackTester) : BackTester :=
  {| balance := balance self; stake_amount := stake_amount self;
     stop_loss := stop_loss self; take_profit := take_profit self;
     trades := trades self; last_action := last_action self;
     wins := wins self; losses := losses self; sl_hits := sl_hits self;
     tp_hits := tp_hits self; force_exits := force_exits self;
     total_trades := v; last_row := last_row self;
     breakeven_exits := breakeven_exits self |}.

Definition set_last_row (v : option Bar) (self : BackTester) : BackTester :=
  {| balance := balance self; stake_amount := stake_amount self;
     stop_loss := stop_loss self; take_profit := take_profit self;
     trades := trades self; last_action := last_action self;
     wins := wins self; losses := losses self; sl_hits := sl_hits self;
     tp_hits := tp_hits self; force_exits := force_exits self;
     total_trades := total_trades self; last_row := v;
     breakeven_exits := breakeven_exits self |}.

Definition tick_breakeven_exits (self : BackTester) : BackTester :=
  {| balance := balance self; stake_amount := stake_amount self;
     stop_loss := stop_loss self; take_profit := take_profit self;
     trades := trades self; last_action := last_action self;
     wins := wins self; losses := losses self; sl_hits := sl_hits self;
     tp_hits := tp_hits self; force_exits := force_exits self;
     total_trades := total_trades self; last_row := last_row self;
     breakeven_exits := S (breakeven_exits self) |}.

(** [trade["exited"] = True] *)
Definition mark_exited (trade : Trade) : Trade :=
  {| price := price trade; amount := amount trade; exited := true |}.

(** ** The engine *)

(** [BackTester._enter_long] (lines 47-61) *)
Definition _enter_long (row : Bar) (self : BackTester) : result BackTester :=
  if Qle_bool (stake_amount self) (balance self) then
    let current_price := close row in
    amount_to_buy ← py_div (stake_amount self) current_price;
    let self := set_trades
      (trades self ++
         [{| price := current_price; amount := amount_to_buy; exited := false |}])
      self in
    let self := set_balance (balance self - stake_amount self) self in
    let self := set_total_trades (total_trades self + 1) self in
    let self := set_last_action (Some "enter_long"%string) self in
    Ok self
  else Ok self.

(** [current_row["close"]]; [self.last_row] is [None] until a bar was
    processed, and subscripting [None] raises [TypeError]. *)
Definition row_close (current_row : option Bar) : result Q :=
  match current_row with
  | Some row => Ok (close row)
  | None => Raise TypeError
  end.

(** Lines 120-122, the tail that every closing path of [_exit_trade] reaches:
    the proceeds go to the balance, the trade at position [i] is flagged. *)
Definition settle (i : nat) (trade : Trade) (position_value : Q)
    (self : BackTester) : BackTester :=
  let self := set_balance (balance self + position_value) self in
  let self := set_trades (<[i := mark_exited trade]> (trades self)) self in
  set_last_action (Some "exit_trade"%string) self.

(** [BackTester._exit_trade] (lines 63-122); [i] is the position in
    [self.trades] of the dict passed as [trade].  A position outside the list
    refers to no trade; callers never pass one. *)
Definition _exit_trade (current_row : option Bar) (i : nat)
    (is_sl_tp force_exit : bool) (self : BackTester) : result BackTester :=
  match trades self !! i with
  | None => Ok self
  | Some trade =>
    if exited trade then Ok self
    else
      c ← row_close current_row;
      let position_value := amount trade * c in
      (* Loosing position *)
      if Qlt_bool position_value (stake_amount self) then
        if negb is_sl_tp then
          if force_exit then
            let self := set_force_exits (force_exits self + 1) self in
            let self :=
              set_losses (losses self ++ [stake_amount self - position_value]) self in
            Ok (settle i trade position_value self)
          else Ok self
        else
          let loss := stake_amount self - position_value in
          pct_loss ← py_div loss (stake_amount self);
          if Qle_bool (stop_loss self) pct_loss then
            let self := set_sl_hits (sl_hits self + 1) self in
            let self :=
              set_losses (losses self ++ [stake_amount self - position_value]) self in
            Ok (settle i trade position_value self)
          else Ok self
      (* Gaining Position *)
      else if Qlt_bool (stake_amount self) position_value then
        if negb is_sl_tp then
          if force_exit then
            let self := set_force_exits (force_exits self + 1) self in
            let self :=
              set_wins (wins self ++ [position_value - stake_amount self]) self in
            Ok (settle i trade position_value self)
          else Ok self
        else
          let gain := position_value - stake_amount self in
          pct_gain ← py_div gain (stake_amount self);
          if Qle_bool (take_profit self) pct_gain then
            let self := set_tp_hits (tp_hits self + 1) self in
            let self :=
              set_wins (wins self ++ [position_value - stake_amount self]) self in
            Ok (settle i trade position_value self)
          else Ok self
      (* No change *)
      else
        if negb force_exit then Ok self
        else
          let self := set_force_exits (force_exits self + 1) self in
          let self := tick_breakeven_exits self in
          Ok (settle i trade position_value self)
  end.

(** Positions, counted from [k], of the trades of [l] that are not exited. *)
Fixpoint open_from (k : nat) (l : list Trade) : list nat :=
  match l with
  | [] => []
  | trade :: l' =>
    if exited trade then open_from (S k) l' else k :: open_from (S k) l'
  end.

(** [[trade for trade in self.trades if not trade["exited"]]] *)
Definition trades_to_exit (self : BackTester) : list nat :=
  open_from 0 (trades self).

(** [BackTester._exit_trades] (lines 124-136) *)
Definition _exit_trades (current_row : option Bar) (is_sl_tp force_exit : bool)
    (self : BackTester) : result BackTester :=
  for_each (λ i, _exit_trade current_row i is_sl_tp force_exit)
    (trades_to_exit self) self.

(** The metrics dictionary; every value is a one-element list. *)
Record Metrics : Set := {
  m_wins : list nat;
  m_losses : list nat;
  m_win_amount : list Q;
  m_loss_amount : list Q;
  m_sl_hits : list nat;
  m_tp_hits : list nat;
  m_force_exits : list nat;
  m_win_pct : list Q;
  m_loss_pct : list Q;
  m_wl_ratio : list Q;
  m_total_trades : list nat;
  m_final_balance : list Q;
}.

(** [BackTester._calculate_metrics] (lines 138-160) *)
Definition _calculate_metrics (self : BackTester) : result Metrics :=
  let no_of_wins := length (wins self) in
  let no_of_loss := length (losses self) in
  let win_total := py_sum (wins self) in
  let loss_total := py_sum (losses self) in
  w ← py_div (Q_of_nat no_of_wins) (Q_of_nat (total_trades self));
  let win_percentage := w * 100 in
  l ← py_div (Q_of_nat no_of_loss) (Q_of_nat (total_trades self));
  let loss_percentage := l * 100 in
  win_loss_ratio ← py_div (Q_of_nat no_of_wins) (Q_of_nat no_of_loss);
  Ok {| m_wins := [no_of_wins];
        m_losses := [no_of_loss];
        m_win_amount := [win_total];
        m_loss_amount := [loss_total];
        m_sl_hits := [sl_hits self];
        m_tp_hits := [tp_hits self];
        m_force_exits := [force_exits self];
        m_win_pct := [win_percentage];
        m_loss_pct := [loss_percentage];
        m_wl_ratio := [win_loss_ratio];
        m_total_trades := [total_trades self];
        m_final_balance := [balance self] |}.

(** The signal handling of one bar (lines 170-176). *)
Definition on_signal (row : Bar) (self : BackTester) : result BackTester :=
  if bool_decide (signal row = Some "enter_long"%string) then
    if bool_decide (last_action self ≠ Some "enter_long"%string) then
      _enter_long row self
    else Ok self
  else if bool_decide (signal row = Some "exit_long"%string) then
    _exit_trades (Some row) false true self
  else Ok self.

(** The body of the loop of [backtest] (lines 170-179). *)
Definition backtest_row (row : Bar) (self : BackTester) : result BackTester :=
  self ← on_signal row self;
  self ← _exit_trades (Some row) true false self;
  Ok (set_last_row (Some row) self).

(** The loop of [backtest] (line 169). *)
Definition backtest_loop (data_frame : list Bar) (self : BackTester)
  : result BackTester :=
  for_each backtest_row data_frame self.

(** [backtest] up to the liquidation of line 182: the ledger that
    [_print_backtest_results] is called on. *)
Definition backtest_ledger (data_frame : list Bar) (self : BackTester)
  : result BackTester :=
  self ← backtest_loop data_frame self;
  _exit_trades (last_row self) false true self.

(** [BackTester.backtest] (lines 167-183): the final ledger and the metrics
    that [_print_backtest_results] computes and prints. *)
Definition backtest (data_frame : list Bar) (self : BackTester)
  : result (BackTester * Metrics) :=
  self ← backtest_ledger data_frame self;
  metrics ← _calculate_metrics self;
  Ok (self, metrics).

(** ** Observations of a ledger *)

(** The positions with [exited == False]. *)
Definition open_trades (l : list Trade) : list Trade :=
  filter (λ trade, exited trade = false) l.

Definition closed_trades (l : list Trade) : list Trade :=
  filter (λ trade, exited trade = true) l.

Definition open_positions (self : BackTester) : nat :=
  length (open_trades (trades self)).

Definition closed_positions (self : BackTester) : nat :=
  length (closed_trades (trades self)).

(** ** The states a run goes through

    [for_each_points] lists, in order, the states that a loop passes through
    when every iteration [x] passes through [pts x]; the [*_points] functions
    below list the state of the engine after every call that [backtest] makes
    to [_enter_long] and to [_exit_trade], and at the end of every bar. *)

Fixpoint for_each_points {X S : Type} (body : X → S → result S)
    (pts : X → S → list S) (xs : list X) (s : S) : list S :=
  match xs with
  | [] => []
  | x :: xs' =>
    pts x s ++
    match body x s with
    | Ok s' => for_each_points body pts xs' s'
    | Raise _ => []
    end
  end.

Definition after {S : Type} (m : result S) : list S :=
  match m with
  | Ok s' => [s']
  | Raise _ => []
  end.

Definition _exit_trades_points (current_row : option Bar)
    (is_sl_tp force_exit : bool) (self : BackTester) : list BackTester :=
  for_each_points
    (λ i, _exit_trade current_row i is_sl_tp force_exit)
    (λ i s, after (_exit_trade current_row i is_sl_tp force_exit s))
    (trades_to_exit self) self.

Definition on_signal_points (row : Bar) (self : BackTester) : list BackTester :=
  if bool_decide (signal row = Some "enter_long"%string) then
    if bool_decide (last_action self ≠ Some "enter_long"%string) then
      after (_enter_long row self)
    else []
  else if bool_decide (signal row = Some "exit_long"%string) then
    _exit_trades_points (Some row) false true self
  else [].

Definition backtest_row_points (row : Bar) (self : BackTester) : list BackTester :=
  on_signal_points row self ++
  match on_signal row self with
  | Ok s1 =>
    _exit_trades_points (Some row) true false s1 ++
    after (backtest_row row self)
  | Raise _ => []
  end.

Definition backtest_points (data_frame : list Bar) (self : BackTester)
  : list BackTester :=
  self ::
  for_each_points backtest_row backtest_row_points data_frame self ++
  match backtest_loop data_frame self with
  | Ok s1 => _exit_trades_points (last_row s1) false true s1
  | Raise _ => []
  end.

(** The three parameters copied from the strategy; no method assigns them. *)
Definition same_params (s s' : BackTester) : Prop :=
  stake_amount s' = stake_amount s ∧ stop_loss s' = stop_loss s ∧
  take_profit s' = take_profit s.

(** What the positions of a ledger bring in when all the open ones are sold at
    the close of [row], added to [b] in the order of the ledger. *)
Definition sell_all (row : Bar) (l : list Trade) (b : Q) : Q :=
  fold_left
    (λ b trade, if exited trade then b else b + amount trade * close row) l b.

(** The bookkeeping behind "no pyramiding": no position is open, or one is and
    the entry that opened it is the last recorded action. *)
Definition one_open (s : BackTester) : Prop :=
  open_positions s = 0%nat ∨
  (open_positions s = 1%nat ∧ last_action s = Some "enter_long"%string).

(** Every closed position is a win, a loss or a forced exit at break-even. *)
Definition reconciled (s : BackTester) : Prop :=
  (length (wins s) + length (losses s) + breakeven_exits s)%nat =
  closed_positions s.

(** ** The bookings of a closing exit

    [booked pv is_sl_tp force_exit s s0]: [s0] is [s] after the counter and the
    win/loss list were updated on one of the five paths of [_exit_trade] that
    reach line 120, for a position worth [pv].  It is the case analysis of
    [_exit_trade] in relational form, used for inversion in proofs. *)
Inductive booked (pv : Q) (is_sl_tp force_exit : bool) (s : BackTester)
  : BackTester → Prop :=
| booked_forced_loss :
    pv < stake_amount s → is_sl_tp = false → force_exit = true →
    booked pv is_sl_tp force_exit s
      (set_losses (losses s ++ [stake_amount s - pv])
         (set_force_exits (force_exits s + 1) s))
| booked_stop_loss :
    pv < stake_amount s → is_sl_tp = true → ¬ stake_amount s == 0 →
    stop_loss s <= (stake_amount s - pv) / stake_amount s →
    booked pv is_sl_tp force_exit s
      (set_losses (losses s ++ [stake_amount s - pv])
         (set_sl_hits (sl_hits s + 1) s))
| booked_forced_gain :
    stake_amount s < pv → is_sl_tp = false → force_exit = true →
    booked pv is_sl_tp force_exit s
      (set_wins (wins s ++ [pv - stake_amount s])
         (set_force_exits (force_exits s + 1) s))
| booked_take_profit :
    stake_amount s < pv → is_sl_tp = true → ¬ stake_amount s == 0 →
    take_profit s <= (pv - stake_amount s) / stake_amount s →
    booked pv is_sl_tp force_exit s
      (set_wins (wins s ++ [pv - stake_amount s])
         (set_tp_hits (tp_hits s + 1) s))
| booked_forced_even :
    stake_amount s <= pv → pv <= stake_amount s → force_exit = true →
    booked pv is_sl_tp force_exit s
      (tick_breakeven_exits (set_force_exits (force_exits s + 1) s)).

(** ** More bookkeeping of the ledger *)

(** Every closed position was counted once, as a stop-loss hit, a take-profit
    hit or a forced exit, and [total_trades] counts the positions. *)
Definition counted (s : BackTester) : Prop :=
  (sl_hits s + tp_hits s + force_exits s)%nat = closed_positions s ∧
  total_trades s = length (trades s).

(** The balance, plus one stake for every open position, is the starting
    balance [B0] plus the recorded wins minus the recorded losses. *)
Definition funded (B0 : Q) (s : BackTester) : Prop :=
  balance s + Q_of_nat (open_positions s) * stake_amount s ==
  B0 + py_sum (wins s) - py_sum (losses s).

(** Only strictly positive amounts are recorded as wins and as losses. *)
Definition positive_records (s : BackTester) : Prop :=
  Forall (λ x, 0 < x) (wins s) ∧ Forall (λ x, 0 < x) (losses s).

(** The balance and the quantities held are not negative. *)
Definition solvent (s : BackTester) : Prop :=
  0 <= stake_amount s ∧ 0 <= balance s ∧
  Forall (λ trade, 0 <= amount trade) (trades s).

(** [l'] is [l] with positions appended and flags raised: no position is
    removed, no price or amount is rewritten, no flag is lowered. *)
Definition ledger_grows (l l' : list Trade) : Prop :=
  ∀ i trade, l !! i = Some trade →
    ∃ trade', l' !! i = Some trade' ∧
              price trade' = price trade ∧ amount trade' = amount trade ∧
              (exited trade = true → exited trade' = true).

(** Every position was bought for one stake at its entry price. *)
Definition priced (s : BackTester) : Prop :=
  Forall (λ trade, ¬ price trade == 0 ∧
                   amount trade = stake_amount s / price trade) (trades s).

(** * The strategies of [strategies/knn.py] and [BackTester.run]

    A data frame is modelled by the list of its rows, a row by a record of the
    columns that the strategies and the engine read or write.  A float column
    holds numbers, infinities and NaN; a column that was not assigned yet
    holds NaN (or [None] for the integer and the string columns), and a method
    is meant to be called, as [run] does, when the columns it reads exist.
    pandas refuses, on a frame without rows, the masked assignment of a scalar
    that creates a column: what is stated of [populate_entry_signal] and
    [populate_exit_signal] is stated of frames with rows.  The functions of
    [pandas_ta] and the fitted classifier are not part of the repository: they
    are parameters. *)

(** ** Cells of a float column *)

Inductive cell : Set :=
| Num (q : Q)
| PosInf
| NegInf
| NaN.

(** [x < y] on floats: false as soon as one side is NaN. *)
Definition cell_lt (x y : cell) : bool :=
  match x, y with
  | NaN, _ | _, NaN => false
  | Num a, Num b => Qlt_bool a b
  | NegInf, NegInf => false
  | NegInf, _ => true
  | _, NegInf => false
  | PosInf, _ => false
  | Num _, PosInf => true
  end.

(** [x > y] *)
Definition cell_gt (x y : cell) : bool := cell_lt y x.

Definition cell_neg (x : cell) : cell :=
  match x with
  | Num a => Num (- a)
  | PosInf => NegInf
  | NegInf => PosInf
  | NaN => NaN
  end.

Definition cell_add (x y : cell) : cell :=
  match x, y with
  | NaN, _ | _, NaN => NaN
  | Num a, Num b => Num (a + b)
  | PosInf, NegInf | NegInf, PosInf => NaN
  | PosInf, _ | _, PosInf => PosInf
  | NegInf, _ | _, NegInf => NegInf
  end.

Definition cell_sub (x y : cell) : cell := cell_add x (cell_neg y).

(** The infinity with the sign of [a], for [a] not zero. *)
Definition inf_of_sign (a : Q) : cell := if Qlt_bool 0 a then PosInf else NegInf.

Definition cell_mul (x y : cell) : cell :=
  match x, y with
  | NaN, _ | _, NaN => NaN
  | Num a, Num b => Num (a * b)
  | Num a, PosInf | PosInf, Num a =>
    if Qeq_bool a 0 then NaN else inf_of_sign a
  | Num a, NegInf | NegInf, Num a =>
    if Qeq_bool a 0 then NaN else inf_of_sign (- a)
  | PosInf, PosInf | NegInf, NegInf => PosInf
  | PosInf, NegInf | NegInf, PosInf => NegInf
  end.

(** Float division raises nothing in numpy: [0 / 0] is NaN and [a / 0] is an
    infinity.  Zero is taken positive, as a difference [x - x] is. *)
Definition cell_div (x y : cell) : cell :=
  match x, y with
  | NaN, _ | _, NaN => NaN
  | Num a, Num b =>
    if Qeq_bool b 0 then (if Qeq_bool a 0 then NaN else inf_of_sign a)
    else Num (a / b)
  | Num _, (PosInf | NegInf) => Num 0
  | PosInf, Num b => if Qlt_bool b 0 then NegInf else PosInf
  | NegInf, Num b => if Qlt_bool b 0 then PosInf else NegInf
  | (PosInf | NegInf), (PosInf | NegInf) => NaN
  end.

Definition is_nan (x : cell) : bool :=
  match x with
  | NaN => true
  | _ => false
  end.

(** [DataFrame.mean(axis=1)] on one row: NaN cells are skipped, and a row
    of NaN only has mean NaN. *)
Definition nanmean (xs : list cell) : cell :=
  let values := List.filter (λ x, negb (is_nan x)) xs in
  match values with
  | [] => NaN
  | _ => cell_div (foldl cell_add (Num 0) values) (Num (Q_of_nat (length values)))
  end.

(** [col[i]] of a column aligned on the index of the frame. *)
Definition at_index (col : list cell) (i : nat) : cell := default NaN (col !! i).

Definition list_max (l : list Q) : cell :=
  match l with
  | [] => NaN
  | x :: l' => Num (foldl Qmax x l')
  end.

Definition list_min (l : list Q) : cell :=
  match l with
  | [] => NaN
  | x :: l' => Num (foldl Qmin x l')
  end.

(** [series.rolling(window=w).agg()]: at index [i] the aggregate of the [w]
    values that end at [i], and NaN while fewer than [w] values are there. *)
Definition rolling (agg : list Q → cell) (w : nat) (xs : list Q) : list cell :=
  imap (λ i _, if decide (w ≤ S i)%nat
               then agg (take w (drop (S i - w) xs))
               else NaN) xs.

(** [series.shift(1)] of a numeric column. *)
Definition shift1 (xs : list Q) : list cell :=
  take (length xs) (NaN :: (Num <$> xs)).

(** ** The external functions *)

(** [pandas_ta]: [rsi(close, length)], [cci(close, length, high, low)],
    [roc(close, length)], [ema(close, length)]. *)
Record pandas_ta : Type := {
  rsi : list Q → nat → list cell;
  cci : list Q → nat → list Q → list Q → list cell;
  roc : list Q → nat → list cell;
  ema : list Q → nat → list cell;
}.

(** [self.model]: [predict] takes the rows of features and returns one class
    per row. *)
Record Classifier : Type := {
  predict : list (list cell) → list Z;
}.

(** ** [KNNStrategy] *)

Module KNN.

Definition start_up_candle_count : nat := 28.
Definition long_window : nat := 28.
Definition short_window : nat := 14.

Record Indicators : Set := {
  v_max_rolling_long : cell;
  v_min_rolling_long : cell;
  v_max_rolling_short : cell;
  v_min_rolling_short : cell;
  vs : cell;
  vf : cell;
  rs : cell;
  rf : cell;
  cs : cell;
  cf : cell;
  os : cell;
  of_ : cell;
}.

Record row : Set := {
  close : Q;
  high : Q;
  low : Q;
  volume : Q;
  indicators : Indicators;
  feature_1 : cell;
  feature_2 : cell;
  label : option Z;
  predicted : option Z;
  signal : option string;
}.

(** [KNNStrategy.populate_indicators] (lines 38-77) *)
Definition populate_indicators (ta : pandas_ta) (data_frame : list row)
  : list row :=
  let volume_col := volume <$> data_frame in
  let close_col := close <$> data_frame in
  let high_col := high <$> data_frame in
  let low_col := low <$> data_frame in
  let v_max_long := rolling list_max long_window volume_col in
  let v_min_long := rolling list_min long_window volume_col in
  let v_max_short := rolling list_max short_window volume_col in
  let v_min_short := rolling list_min short_window volume_col in
  let rs_col := rsi ta close_col long_window in
  let rf_col := rsi ta close_col short_window in
  let cs_col := cci ta close_col long_window high_col low_col in
  let cf_col := cci ta close_col short_window high_col low_col in
  let os_col := roc ta close_col long_window in
  let of_col := roc ta close_col short_window in
  imap (λ i r,
    {| close := close r; high := high r; low := low r; volume := volume r;
       indicators :=
         {| v_max_rolling_long := at_index v_max_long i;
            v_min_rolling_long := at_index v_min_long i;
            v_max_rolling_short := at_index v_max_short i;
            v_min_rolling_short := at_index v_min_short i;
            vs := cell_div
                    (cell_mul (Num 99)
                       (cell_sub (Num (volume r)) (at_index v_min_long i)))
                    (cell_sub (at_index v_max_long i) (at_index v_min_long i));
            vf := cell_div
                    (cell_mul (Num 99)
                       (cell_sub (Num (volume r)) (at_index v_min_short i)))
                    (cell_sub (at_index v_max_short i) (at_index v_min_short i));
            rs := at_index rs_col i;
            rf := at_index rf_col i;
            cs := at_index cs_col i;
            cf := at_index cf_col i;
            os := at_index os_col i;
            of_ := at_index of_col i |};
       feature_1 := feature_1 r; feature_2 := feature_2 r;
       label := label r; predicted := predicted r; signal := signal r |})
    data_frame.

(** [KNNStrategy.populate_features] (lines 21-31) *)
Definition populate_features (data_frame : list row) : list row :=
  let data_frame :=
    (λ r,
      {| close := close r; high := high r; low := low r; volume := volume r;
         indicators := indicators r;
         feature_1 := nanmean [vf (indicators r); rf (indicators r);
                               cf (indicators r); of_ (indicators r)];
         feature_2 := nanmean [vs (indicators r); rs (indicators r);
                               cs (indicators r); os (indicators r)];
         label := label r; predicted := predicted r; signal := signal r |})
    <$> data_frame in
  let final_df := drop start_up_candle_count data_frame in
  let shifted := shift1 (close <$> final_df) in
  imap (λ i r,
    {| close := close r; high := high r; low := low r; volume := volume r;
       indicators := indicators r;
       feature_1 := feature_1 r; feature_2 := feature_2 r;
       label := Some (if cell_gt (at_index shifted i) (Num (close r))
                      then (-1)%Z else 1%Z);
       predicted := predicted r; signal := signal r |})
    final_df.

(** [KNNStrategy.populate_predictions] (lines 33-36) *)
Definition populate_predictions (model : Classifier) (data_frame : list row)
  : list row :=
  let predictions :=
    predict model ((λ r, [feature_1 r; feature_2 r]) <$> data_frame) in
  imap (λ i r,
    {| close := close r; high := high r; low := low r; volume := volume r;
       indicators := indicators r;
       feature_1 := feature_1 r; feature_2 := feature_2 r;
       label := label r; predicted := predictions !! i; signal := signal r |})
    data_frame.

Definition set_signal (v : option string) (r : row) : row :=
  {| close := close r; high := high r; low := low r; volume := volume r;
     indicators := indicators r;
     feature_1 := feature_1 r; feature_2 := feature_2 r;
     label := label r; predicted := predicted r; signal := v |}.

(** [KNNStrategy.populate_entry_signal] (lines 79-81) *)
Definition populate_entry_signal (data_frame : list row) : list row :=
  (λ r, if bool_decide (predicted r = Some 1%Z)
        then set_signal (Some "enter_long"%string) r else r) <$> data_frame.

(** [KNNStrategy.populate_exit_signal] (lines 83-85) *)
Definition populate_exit_signal (data_frame : list row) : list row :=
  (λ r, if bool_decide (predicted r = Some (-1)%Z)
        then set_signal (Some "exit_long"%string) r else r) <$> data_frame.

(** What [DataFrame.iterrows] hands to the engine. *)
Definition iterrows (data_frame : list row) : list Bar :=
  (λ r, Build_Bar (close r) (signal r)) <$> data_frame.

End KNN.

(** ** [KNNEMARibbonStrategy] *)

Module KNNEMARibbon.

Definition start_up_candle_count : nat := 30.
Definition ema_1_length : nat := 10.
Definition ema_2_length : nat := 20.
Definition ema_3_length : nat := 30.

Record row : Set := {
  close : Q;
  ema_1 : cell;
  ema_2 : cell;
  ema_3 : cell;
  label : option Z;
  predicted : option Z;
  signal : option string;
}.

(** [(ema_1 < ema_2) & (ema_2 < ema_3)] *)
Definition falling (r : row) : bool :=
  cell_lt (ema_1 r) (ema_2 r) && cell_lt (ema_2 r) (ema_3 r).

(** [(ema_1 > ema_2) & (ema_2 > ema_3)] *)
Definition rising (r : row) : bool :=
  cell_gt (ema_1 r) (ema_2 r) && cell_gt (ema_2 r) (ema_3 r).

Definition set_label (v : option Z) (r : row) : row :=
  {| close := close r; ema_1 := ema_1 r; ema_2 := ema_2 r; ema_3 := ema_3 r;
     label := v; predicted := predicted r; signal := signal r |}.

Definition set_signal (v : option string) (r : row) : row :=
  {| close := close r; ema_1 := ema_1 r; ema_2 := ema_2 r; ema_3 := ema_3 r;
     label := label r; predicted := predicted r; signal := v |}.

(** [KNNEMARibbonStrategy.populate_indicators] (lines 126-131) *)
Definition populate_indicators (ta : pandas_ta) (data_frame : list row)
  : list row :=
  let close_col := close <$> data_frame in
  let ema_1_col := ema ta close_col ema_1_length in
  let ema_2_col := ema ta close_col ema_2_length in
  let ema_3_col := ema ta close_col ema_3_length in
  imap (λ i r,
    {| close := close r;
       ema_1 := at_index ema_1_col i;
       ema_2 := at_index ema_2_col i;
       ema_3 := at_index ema_3_col i;
       label := label r; predicted := predicted r; signal := signal r |})
    data_frame.

(** [KNNEMARibbonStrategy.populate_features] (lines 104-119) *)
Definition populate_features (data_frame : list row) : list row :=
  let final_df := drop start_up_candle_count data_frame in
  let final_df := set_label (Some 0%Z) <$> final_df in
  let final_df :=
    (λ r, if falling r then set_label (Some (-1)%Z) r else r) <$> final_df in
  (λ r, if rising r then set_label (Some 1%Z) r else r) <$> final_df.

(** [KNNEMARibbonStrategy.populate_predictions] (lines 121-124) *)
Definition populate_predictions (model : Classifier) (data_frame : list row)
  : list row :=
  let predictions :=
    predict model ((λ r, [ema_1 r; ema_2 r; ema_3 r]) <$> data_frame) in
  imap (λ i r,
    {| close := close r; ema_1 := ema_1 r; ema_2 := ema_2 r; ema_3 := ema_3 r;
       label := label r; predicted := predictions !! i; signal := signal r |})
    data_frame.

(** [KNNEMARibbonStrategy.populate_entry_signal] (lines 133-140) *)
Definition populate_entry_signal (data_frame : list row) : list row :=
  (λ r, if bool_decide (predicted r = Some 1%Z) && rising r
        then set_signal (Some "enter_long"%string) r else r) <$> data_frame.

(** [KNNEMARibbonStrategy.populate_exit_signal] (lines 142-148) *)
Definition populate_exit_signal (data_frame : list row) : list row :=
  (λ r, if falling r then set_signal (Some "exit_long"%string) r else r)
  <$> data_frame.

Definition iterrows (data_frame : list row) : list Bar :=
  (λ r, Build_Bar (close r) (signal r)) <$> data_frame.

End KNNEMARibbon.

(** ** [BackTester.run] *)

(** The methods of a strategy that [run] calls, on frames of type [F]. *)
Record StrategyMethods (F : Type) : Type := {
  ai_enabled : bool;
  populate_indicators : F → F;
  populate_features : F → F;
  populate_predictions : F → F;
  populate_entry_signal : F → F;
  populate_exit_signal : F → F;
  iterrows : F → list Bar;
}.

Arguments ai_enabled {F} _.
Arguments populate_indicators {F} _ _.
Arguments populate_features {F} _ _.
Arguments populate_predictions {F} _ _.
Arguments populate_entry_signal {F} _ _.
Arguments populate_exit_signal {F} _ _.
Arguments iterrows {F} _ _.

(** [BackTester.run] (lines 185-193); [dataframe] is what the property
    [self.dataframe] loads from the data handler. *)
Definition run {F : Type} (strategy : StrategyMethods F) (dataframe : F)
    (self : BackTester) : result (BackTester * Metrics) :=
  let data_frame := populate_indicators strategy dataframe in
  let data_frame :=
    if ai_enabled strategy then
      let data_frame := populate_features strategy data_frame in
      populate_predictions strategy data_frame
    else data_frame in
  let data_frame := populate_entry_signal strategy data_frame in
  let data_frame := populate_exit_signal strategy data_frame in
  backtest (iterrows strategy data_frame) self.

(** The two strategies as [run] sees them; both are AI strategies. *)
Definition KNN_methods (ta : pandas_ta) (model : Classifier)
  : StrategyMethods (list KNN.row) :=
  {| ai_enabled := true;
     populate_indicators := KNN.populate_indicators ta;
     populate_features := KNN.populate_features;
     populate_predictions := KNN.populate_predictions model;
     populate_entry_signal := KNN.populate_entry_signal;
     populate_exit_signal := KNN.populate_exit_signal;
     iterrows := KNN.iterrows |}.

Definition KNNEMARibbon_methods (ta : pandas_ta) (model : Classifier)
  : StrategyMethods (list KNNEMARibbon.row) :=
  {| ai_enabled := true;
     populate_indicators := KNNEMARibbon.populate_indicators ta;
     populate_features := KNNEMARibbon.populate_features;
     populate_predictions := KNNEMARibbon.populate_predictions model;
     populate_entry_signal := KNNEMARibbon.populate_entry_signal;
     populate_exit_signal := KNNEMARibbon.populate_exit_signal;
     iterrows := KNNEMARibbon.iterrows |}.

(** ** Arithmetic and control lemmas *)

Lemma Qlt_bool_iff (x y : Q) : Qlt_bool x y = true ↔ x < y.
Proof. unfold Qlt_bool, Qlt. apply Z.ltb_lt. Qed.

Lemma Qlt_bool_ge (x y : Q) : Qlt_bool x y = false ↔ y <= x.
Proof. unfold Qlt_bool, Qle. apply Z.ltb_ge. Qed.

Lemma Qle_bool_gt (x y : Q) : Qle_bool x y = false ↔ y < x.
Proof. unfold Qle_bool, Qlt. apply Z.leb_gt. Qed.

Lemma py_div_ok (a b : Q) : ¬ b == 0 → py_div a b = Ok (a / b).
Proof.
  intros Hb. unfold py_div.
  destruct (Qeq_bool b 0) eqn:E; [|done].
  apply Qeq_bool_eq in E. contradiction.
Qed.

Lemma py_div_zero (a b : Q) : b == 0 → py_div a b = Raise ZeroDivisionError.
Proof. intros Hb. unfold py_div. by rewrite (Qeq_eq_bool _ _ Hb). Qed.

Lemma py_div_inv (a b : Q) (q : Q) : py_div a b = Ok q → ¬ b == 0 ∧ q = a / b.
Proof.
  unfold py_div. destruct (Qeq_bool b 0) eqn:E; [done|].
  intros [= <-]. split; [|done]. by apply Qeq_bool_neq.
Qed.

Lemma Q_of_nat_zero (n : nat) : Q_of_nat n == 0 ↔ n = 0%nat.
Proof.
  unfold Q_of_nat, Qeq. simpl. rewrite Z.mul_1_r. split; [|by intros ->].
  intros H. by apply Nat2Z.inj.
Qed.

Lemma bind_of_Ok {A B : Type} (a : A) (k : A → result B) : Ok a ≫= k = k a.
Proof. done. Qed.

Lemma bind_Ok {A B : Type} (m : result A) (k : A → result B) (b : B) :
  m ≫= k = Ok b ↔ ∃ a, m = Ok a ∧ k a = Ok b.
Proof.
  destruct m as [a|e]; simpl; split.
  - intros H. by exists a.
  - by intros (a' & [= ->] & H).
  - done.
  - by intros (a' & [=] & _).
Qed.

Lemma for_each_cons {X S : Type} (body : X → S → result S) (x : X) (xs : list X)
    (s : S) :
  for_each body (x :: xs) s = body x s ≫= for_each body xs.
Proof. done. Qed.

Lemma for_each_app {X S : Type} (body : X → S → result S) (xs ys : list X) (s : S) :
  for_each body (xs ++ ys) s = for_each body xs s ≫= for_each body ys.
Proof.
  revert s. induction xs as [|x xs IH]; intros s; simpl; [done|].
  destruct (body x s) as [s'|e]; simpl; [apply IH|done].
Qed.

(** A property that every iteration keeps holds at every point of the loop and
    at its end. *)
Lemma for_each_points_Forall {X S : Type} (I : S → Prop) (body : X → S → result S)
    (pts : X → S → list S) (xs : list X) (s : S) :
  (∀ x s, I s → Forall I (pts x s)) →
  (∀ x s s', I s → body x s = Ok s' → I s') →
  I s → Forall I (for_each_points body pts xs s).
Proof.
  intros Hpts Hbody. revert s.
  induction xs as [|x xs IH]; intros s Hs; simpl; [constructor|].
  apply Forall_app. split; [by apply Hpts|].
  destruct (body x s) as [s'|e] eqn:E; [|constructor].
  apply IH. by eapply Hbody.
Qed.

Lemma for_each_invariant {X S : Type} (I : S → Prop) (body : X → S → result S)
    (xs : list X) (s s' : S) :
  (∀ x s s', I s → body x s = Ok s' → I s') →
  I s → for_each body xs s = Ok s' → I s'.
Proof.
  intros Hbody. revert s.
  induction xs as [|x xs IH]; intros s Hs; simpl.
  - by intros [= <-].
  - intros (s1 & H1 & H2)%bind_Ok. eapply IH; [|done]. by eapply Hbody.
Qed.

(** ** [_exit_trade], case by case *)

Lemma _exit_trade_outside r i a b (s : BackTester) :
  trades s !! i = None → _exit_trade r i a b s = Ok s.
Proof. intros H. unfold _exit_trade. by rewrite H. Qed.

Lemma _exit_trade_exited r i a b (s : BackTester) trade :
  trades s !! i = Some trade → exited trade = true →
  _exit_trade r i a b s = Ok s.
Proof. intros H E. unfold _exit_trade. by rewrite H, E. Qed.

Lemma _exit_trade_no_row i a b (s : BackTester) trade :
  trades s !! i = Some trade → exited trade = false →
  _exit_trade None i a b s = Raise TypeError.
Proof. intros H E. unfold _exit_trade. by rewrite H, E. Qed.

(** Every normal return of [_exit_trade] either changed nothing or booked the
    exit of an open position and settled it. *)
Lemma _exit_trade_inv r i a b (s s' : BackTester) :
  _exit_trade r i a b s = Ok s' →
  s' = s ∨
  ∃ trade row s0,
    r = Some row ∧ trades s !! i = Some trade ∧ exited trade = false ∧
    booked (amount trade * close row) a b s s0 ∧
    s' = settle i trade (amount trade * close row) s0.
Proof.
  unfold _exit_trade.
  destruct (trades s !! i) as [trade|] eqn:Hi; [|intros [= <-]; by left].
  destruct (exited trade) eqn:He; [intros [= <-]; by left|].
  destruct r as [row|]; simpl; [|done].
  set (pv := amount trade * close row).
  destruct (Qlt_bool pv (stake_amount s)) eqn:Hlt.
  { apply Qlt_bool_iff in Hlt.
    destruct a; simpl.
    - intros (q & [Hz ->]%py_div_inv & H)%bind_Ok.
      destruct (Qle_bool _ _) eqn:Hsl; injection H as <-; [|by left].
      apply Qle_bool_iff in Hsl. right. exists trade, row. eexists.
      repeat split; try done. by apply booked_stop_loss.
    - destruct b; intros [= <-]; [|by left].
      right. exists trade, row. eexists.
      repeat split; try done. by apply booked_forced_loss. }
  apply Qlt_bool_ge in Hlt.
  destruct (Qlt_bool (stake_amount s) pv) eqn:Hgt.
  { apply Qlt_bool_iff in Hgt.
    destruct a; simpl.
    - intros (q & [Hz ->]%py_div_inv & H)%bind_Ok.
      destruct (Qle_bool _ _) eqn:Htp; injection H as <-; [|by left].
      apply Qle_bool_iff in Htp. right. exists trade, row. eexists.
      repeat split; try done. by apply booked_take_profit.
    - destruct b; intros [= <-]; [|by left].
      right. exists trade, row. eexists.
      repeat split; try done. by apply booked_forced_gain. }
  apply Qlt_bool_ge in Hgt.
  destruct b; simpl; intros [= <-]; [|by left].
  right. exists trade, row. eexists.
  repeat split; try done. by apply booked_forced_even.
Qed.

(** What a booking leaves alone. *)
Lemma booked_frame pv a b (s s0 : BackTester) :
  booked pv a b s s0 →
  trades s0 = trades s ∧ balance s0 = balance s ∧
  last_action s0 = last_action s ∧ last_row s0 = last_row s ∧
  total_trades s0 = total_trades s ∧
  stake_amount s0 = stake_amount s ∧ stop_loss s0 = stop_loss s ∧
  take_profit s0 = take_profit s.
Proof. by destruct 1. Qed.

Lemma settle_trades i trade pv (s0 : BackTester) :
  trades (settle i trade pv s0) = <[i := mark_exited trade]> (trades s0).
Proof. done. Qed.

(** An exit never touches another position, and never an exited one. *)
Lemma _exit_trade_other r i j a b (s s' : BackTester) :
  _exit_trade r j a b s = Ok s' → i ≠ j → trades s' !! i = trades s !! i.
Proof.
  intros H Hij.
  apply _exit_trade_inv in H as [->|(t & row & s0 & _ & _ & _ & Hb & ->)]; [done|].
  apply booked_frame in Hb as (Htr & _).
  rewrite settle_trades, Htr. by apply list_lookup_insert_ne.
Qed.

Lemma _exit_trade_keeps_exited r i j a b (s s' : BackTester) trade :
  _exit_trade r j a b s = Ok s' →
  trades s !! i = Some trade → exited trade = true →
  trades s' !! i = Some trade.
Proof.
  intros H Hi He. destruct (decide (i = j)) as [->|Hij].
  - rewrite (_exit_trade_exited _ _ _ _ _ _ Hi He) in H. by injection H as <-.
  - by rewrite (_exit_trade_other _ _ _ _ _ _ _ H Hij).
Qed.

Lemma _enter_long_inv row (s s' : BackTester) :
  _enter_long row s = Ok s' →
  s' = s ∨
  (stake_amount s <= balance s ∧ ¬ close row == 0 ∧
   s' = set_last_action (Some "enter_long"%string)
          (set_total_trades (total_trades s + 1)
             (set_balance (balance s - stake_amount s)
                (set_trades
                   (trades s ++
                      [{| price := close row;
                          amount := stake_amount s / close row;
                          exited := false |}]) s)))).
Proof.
  unfold _enter_long.
  destruct (Qle_bool _ _) eqn:Hb; [|intros [= <-]; by left].
  apply Qle_bool_iff in Hb.
  intros (q & [Hz ->]%py_div_inv & [= <-])%bind_Ok. by right.
Qed.

Lemma _enter_long_keeps row (s s' : BackTester) i trade :
  _enter_long row s = Ok s' → trades s !! i = Some trade →
  trades s' !! i = Some trade.
Proof.
  intros H Hi. apply _enter_long_inv in H as [->|(_ & _ & ->)]; [done|].
  simpl. by apply lookup_app_l_Some.
Qed.

Lemma _enter_long_funded row (s : BackTester) :
  stake_amount s <= balance s → ¬ close row == 0 →
  _enter_long row s =
  Ok {| balance := balance s - stake_amount s;
        stake_amount := stake_amount s;
        stop_loss := stop_loss s;
        take_profit := take_profit s;
        trades := trades s ++
                  [{| price := close row;
                      amount := stake_amount s / close row;
                      exited := false |}];
        last_action := Some "enter_long"%string;
        wins := wins s;
        losses := losses s;
        sl_hits := sl_hits s;
        tp_hits := tp_hits s;
        force_exits := force_exits s;
        total_trades := total_trades s + 1;
        last_row := last_row s;
        breakeven_exits := breakeven_exits s |}.
Proof.
  intros Hle%Qle_bool_iff Hz. unfold _enter_long.
  rewrite Hle, (py_div_ok _ _ Hz). done.
Qed.

(** ** C7 and C8: single calls *)

(** C7. [_exit_trade] on a position whose [exited] flag is already [True] is a
    no-op whatever the row and the flags [is_sl_tp] and [force_exit]: the
    engine state it returns is the state it was given, field by field.  Hence
    exit is idempotent (a second identical call returns the state of the
    first), and a flag that is [True] is never written again: no later exit of
    any position and no later entry changes an exited position. *)
Theorem C7_exit_of_exited_is_noop (r : option Bar) (i : nat) (a b : bool)
    (s : BackTester) (trade : Trade) :
  trades s !! i = Some trade →
  (exited trade = true → _exit_trade r i a b s = Ok s) ∧
  (∀ s', _exit_trade r i a b s = Ok s' → _exit_trade r i a b s' = Ok s') ∧
  (exited trade = true →
   (∀ r' j a' b' s', _exit_trade r' j a' b' s = Ok s' →
      trades s' !! i = Some trade) ∧
   (∀ row s', _enter_long row s = Ok s' → trades s' !! i = Some trade)).
Proof.
  intros Hi. split; [|split].
  - intros He. by eapply _exit_trade_exited.
  - intros s' H.
    destruct (_exit_trade_inv _ _ _ _ _ _ H)
      as [->|(t & row & s0 & _ & Ht & _ & Hb & ->)]; [done|].
    apply booked_frame in Hb as (Htr & _).
    apply (_exit_trade_exited _ _ _ _ _ (mark_exited t)); [|done].
    rewrite settle_trades, Htr. apply list_lookup_insert_eq.
    by eapply lookup_lt_Some.
  - intros He. split.
    + intros r' j a' b' s' H. by eapply _exit_trade_keeps_exited.
    + intros row s' H. by eapply _enter_long_keeps.
Qed.

Lemma C7_exit_of_exited_is_noop_witness :
  let s := set_trades [{| price := 10; amount := 10; exited := true |}]
             (__init__ KNNStrategy 900) in
  _exit_trade (Some {| close := 7; signal := None |}) 0 true true s = Ok s.
Proof.
  intros s.
  apply (C7_exit_of_exited_is_noop (Some {| close := 7; signal := None |})
           0 true true s {| price := 10; amount := 10; exited := true |});
    reflexivity.
Defined.

(** C8. [_enter_long] with [balance < stake_amount] returns normally and
    leaves the whole engine state as it was.  With [balance >= stake_amount]
    (and a close price that is not zero, so that [stake_amount / close] is a
    number) it appends the position [{price: close, amount: stake_amount /
    close, exited: False}], takes [stake_amount] off the balance, adds one to
    [total_trades] and sets [last_action] to ["enter_long"]; nothing else
    changes. *)
Theorem C8_enter_long_capital_guard (row : Bar) (s : BackTester) :
  (balance s < stake_amount s → _enter_long row s = Ok s) ∧
  (stake_amount s <= balance s → ¬ close row == 0 →
   _enter_long row s =
   Ok {| balance := balance s - stake_amount s;
         stake_amount := stake_amount s;
         stop_loss := stop_loss s;
         take_profit := take_profit s;
         trades := trades s ++
                   [{| price := close row;
                       amount := stake_amount s / close row;
                       exited := false |}];
         last_action := Some "enter_long"%string;
         wins := wins s;
         losses := losses s;
         sl_hits := sl_hits s;
         tp_hits := tp_hits s;
         force_exits := force_exits s;
         total_trades := total_trades s + 1;
         last_row := last_row s;
         breakeven_exits := breakeven_exits s |}).
Proof.
  split.
  - intros Hlt%Qle_bool_gt. unfold _enter_long. by rewrite Hlt.
  - apply _enter_long_funded.
Qed.

Lemma C8_enter_long_capital_guard_witness :
  _enter_long {| close := 10; signal := Some "enter_long"%string |}
    (__init__ KNNStrategy 50) = Ok (__init__ KNNStrategy 50) ∧
  ∃ s', _enter_long {| close := 10; signal := Some "enter_long"%string |}
          (__init__ KNNStrategy 250) = Ok s' ∧
        balance s' == 150 ∧ total_trades s' = 1%nat ∧
        last_action s' = Some "enter_long"%string ∧ length (trades s') = 1%nat.
Proof.
  split.
  - apply (C8_enter_long_capital_guard
             {| close := 10; signal := Some "enter_long"%string |}
             (__init__ KNNStrategy 50)).
    reflexivity.
  - eexists. split.
    + apply (C8_enter_long_capital_guard
               {| close := 10; signal := Some "enter_long"%string |}
               (__init__ KNNStrategy 250)).
      * discriminate.
      * discriminate.
    + repeat split.
Defined.

(** ** Open positions and their indices *)

Lemma mark_exited_exited trade : exited trade = true → mark_exited trade = trade.
Proof. destruct trade as [p q e]. simpl. by intros ->. Qed.

Lemma length_open_from k l : length (open_from k l) = length (open_trades l).
Proof.
  revert k. induction l as [|t l IH]; intros k; [done|].
  unfold open_trades in *. rewrite filter_cons. simpl.
  destruct (exited t) eqn:E.
  - rewrite decide_False by done. apply IH.
  - rewrite decide_True by done. simpl. f_equal. apply IH.
Qed.

Lemma elem_of_open_from k l i :
  i ∈ open_from k l ↔
  (k ≤ i)%nat ∧ ∃ trade, l !! (i - k)%nat = Some trade ∧ exited trade = false.
Proof.
  revert k. induction l as [|t l IH]; intros k; simpl.
  - split; [by intros ?%elem_of_nil|]. by intros (_ & ? & ? & _).
  - assert (i ∈ open_from (S k) l ↔
            (k < i)%nat ∧ ∃ trade, (t :: l) !! (i - k)%nat = Some trade ∧
                                   exited trade = false) as Htl.
    { rewrite IH. split.
      - intros (Hle & trade & Hl & He). split; [lia|]. exists trade.
        split; [|done]. replace (i - k)%nat with (S (i - S k)) by lia. done.
      - intros (Hlt & trade & Hl & He). split; [lia|]. exists trade.
        split; [|done]. replace (i - k)%nat with (S (i - S k)) in Hl by lia.
        done. }
    destruct (exited t) eqn:E.
    + rewrite Htl. split.
      * intros (Hlt & H). split; [lia|done].
      * intros (Hle & trade & Hl & He). split; [|by exists trade].
        destruct (decide (i = k)) as [->|]; [|lia].
        rewrite Nat.sub_diag in Hl. simpl in Hl. congruence.
    + rewrite elem_of_cons, Htl. split.
      * intros [->|(Hlt & H)].
        -- split; [done|]. exists t. by rewrite Nat.sub_diag.
        -- split; [lia|done].
      * intros (Hle & H). destruct (decide (i = k)); [by left|].
        right. split; [lia|done].
Qed.

Lemma elem_of_trades_to_exit (s : BackTester) i :
  i ∈ trades_to_exit s ↔ ∃ trade, trades s !! i = Some trade ∧ exited trade = false.
Proof.
  unfold trades_to_exit. rewrite elem_of_open_from, Nat.sub_0_r.
  split; [by intros (_ & H)|]. intros H. split; [lia|done].
Qed.

Lemma NoDup_open_from k l : NoDup (open_from k l).
Proof.
  revert k. induction l as [|t l IH]; intros k; simpl; [constructor|].
  destruct (exited t); [apply IH|].
  constructor; [|apply IH]. rewrite elem_of_open_from. lia.
Qed.

Lemma open_trades_nil l :
  open_trades l = [] ↔ Forall (λ trade, exited trade = true) l.
Proof.
  unfold open_trades. induction l as [|t l IH]; [done|].
  rewrite filter_cons, Forall_cons. destruct (exited t) eqn:E.
  - rewrite decide_False by done. rewrite IH. tauto.
  - rewrite decide_True by done. split; [done|]. intros [? _]. congruence.
Qed.

Lemma open_from_nil k l :
  open_from k l = [] ↔ Forall (λ trade, exited trade = true) l.
Proof.
  rewrite <-open_trades_nil. split; intros H.
  - apply nil_length_inv. by rewrite <-(length_open_from k), H.
  - apply nil_length_inv. by rewrite length_open_from, H.
Qed.

(** Flagging an open position takes one off the open ones and adds one to the
    closed ones. *)
Lemma open_trades_insert l i trade :
  l !! i = Some trade → exited trade = false →
  length (open_trades l) = S (length (open_trades (<[i := mark_exited trade]> l))) ∧
  length (closed_trades (<[i := mark_exited trade]> l)) = S (length (closed_trades l)).
Proof.
  unfold open_trades, closed_trades.
  revert i. induction l as [|t l IH]; intros i Hi He; [done|].
  destruct i as [|i]; simpl in *.
  - injection Hi as ->. rewrite !filter_cons. simpl. rewrite He.
    repeat case_decide; done.
  - destruct (IH i Hi He) as [IH1 IH2].
    rewrite !filter_cons.
    repeat case_decide; try congruence; simpl; rewrite ?IH1, ?IH2; done.
Qed.

Lemma open_trades_app l l' :
  open_trades (l ++ l') = open_trades l ++ open_trades l'.
Proof. apply filter_app. Qed.

Lemma closed_trades_app l l' :
  closed_trades (l ++ l') = closed_trades l ++ closed_trades l'.
Proof. apply filter_app. Qed.

(** ** The parameters are constants *)

Lemma same_params_refl s : same_params s s.
Proof. done. Qed.

Lemma same_params_trans s1 s2 s3 :
  same_params s1 s2 → same_params s2 s3 → same_params s1 s3.
Proof. unfold same_params. intros (-> & -> & ->) (-> & -> & ->). done. Qed.

Lemma _exit_trade_params r i a b s s' :
  _exit_trade r i a b s = Ok s' → same_params s s'.
Proof.
  intros H.
  apply _exit_trade_inv in H as [->|(t & row & s0 & _ & _ & _ & Hb & ->)]; [done|].
  apply booked_frame in Hb as (_ & _ & _ & _ & _ & ? & ? & ?). done.
Qed.

Lemma _enter_long_params row s s' : _enter_long row s = Ok s' → same_params s s'.
Proof. intros H. apply _enter_long_inv in H as [->|(_ & _ & ->)]; done. Qed.

Lemma _exit_trades_params r a b s s' :
  _exit_trades r a b s = Ok s' → same_params s s'.
Proof.
  unfold _exit_trades.
  apply (for_each_invariant (same_params s)); [|done].
  intros i s1 s2 H1 H2. eapply same_params_trans; [done|].
  by eapply _exit_trade_params.
Qed.

Lemma _exit_trades_params_loop r a b idxs s s' :
  for_each (λ i, _exit_trade r i a b) idxs s = Ok s' → same_params s s'.
Proof.
  apply (for_each_invariant (same_params s)); [|done].
  intros i s1 s2 H1 H2. eapply same_params_trans; [done|].
  by eapply _exit_trade_params.
Qed.

(** ** The forced sweep: [_exit_trades(row, force_exit=True)] *)

(** A forced exit of an open position always closes it, on one of the three
    forced paths, and raises nothing. *)
Lemma forced_exit_open row i (s : BackTester) trade :
  trades s !! i = Some trade → exited trade = false →
  ∃ s0, booked (amount trade * close row) false true s s0 ∧
        _exit_trade (Some row) i false true s =
        Ok (settle i trade (amount trade * close row) s0).
Proof.
  intros Hi He. unfold _exit_trade. rewrite Hi, He. simpl.
  set (pv := amount trade * close row).
  destruct (Qlt_bool pv (stake_amount s)) eqn:Hlt.
  { apply Qlt_bool_iff in Hlt. eexists. split; [|done].
    by apply booked_forced_loss. }
  apply Qlt_bool_ge in Hlt.
  destruct (Qlt_bool (stake_amount s) pv) eqn:Hgt.
  { apply Qlt_bool_iff in Hgt. eexists. split; [|done].
    by apply booked_forced_gain. }
  apply Qlt_bool_ge in Hgt. eexists. split; [|done].
  by apply booked_forced_even.
Qed.

Lemma booked_forced pv (s s0 : BackTester) :
  booked pv false true s s0 →
  force_exits s0 = (force_exits s + 1)%nat ∧
  sl_hits s0 = sl_hits s ∧ tp_hits s0 = tp_hits s.
Proof. by destruct 1. Qed.

(** The forced sweep over the open positions of the tail [l] of the ledger. *)
Lemma forced_sweep_from row (l pre : list Trade) (s : BackTester) :
  trades s = pre ++ l →
  ∃ s',
    for_each (λ i, _exit_trade (Some row) i false true)
      (open_from (length pre) l) s = Ok s' ∧
    trades s' = pre ++ (mark_exited <$> l) ∧
    force_exits s' = (force_exits s + length (open_trades l))%nat ∧
    balance s' = sell_all row l (balance s) ∧
    sl_hits s' = sl_hits s ∧ tp_hits s' = tp_hits s ∧
    total_trades s' = total_trades s ∧ last_row s' = last_row s.
Proof.
  revert pre s. induction l as [|t l IH]; intros pre s Hs; simpl.
  { exists s. rewrite Hs. repeat split; try done. }
  assert (trades s !! length pre = Some t) as Hk
    by (rewrite Hs; apply list_lookup_middle; done).
  unfold open_trades. rewrite filter_cons. fold (open_trades l).
  destruct (exited t) eqn:He.
  - rewrite decide_False by done.
    destruct (IH (pre ++ [t]) s) as (s' & Hrun & Htr & Hrest).
    { by rewrite <-app_assoc. }
    exists s'. rewrite length_app, Nat.add_1_r in Hrun.
    split; [done|]. split; [|done].
    by rewrite Htr, <-app_assoc, (mark_exited_exited _ He).
  - rewrite decide_True by done.
    destruct (forced_exit_open row _ _ _ Hk He) as (s0 & Hb & Hexit).
    rewrite for_each_cons, Hexit. simpl.
    pose proof (booked_frame _ _ _ _ _ Hb) as (Htr0 & Hbal0 & _ & Hrow0 & Htot0 & _).
    pose proof (booked_forced _ _ _ Hb) as (Hfe & Hsl & Htp).
    set (s1 := settle _ _ _ s0).
    destruct (IH (pre ++ [mark_exited t]) s1) as (s' & Hrun & Htr & Hfe' & Hbal & Hrest).
    { unfold s1. rewrite settle_trades, Htr0, Hs, <-app_assoc. simpl.
      replace (length pre) with (length pre + 0)%nat by lia.
      by rewrite insert_app_r. }
    exists s'. rewrite length_app, Nat.add_1_r in Hrun.
    split; [done|]. split; [by rewrite Htr, <-app_assoc|].
    split; [rewrite Hfe'; simpl; rewrite Hfe; lia|].
    split; [rewrite Hbal; simpl; by rewrite Hbal0|].
    destruct Hrest as (-> & -> & -> & ->). simpl. by rewrite Hsl, Htp, Htot0, Hrow0.
Qed.

(** [_exit_trades(row, force_exit=True)] raises nothing and closes every open
    position at the close of [row]. *)
Lemma forced_sweep row (s : BackTester) :
  ∃ s',
    _exit_trades (Some row) false true s = Ok s' ∧
    trades s' = mark_exited <$> trades s ∧
    force_exits s' = (force_exits s + open_positions s)%nat ∧
    balance s' = sell_all row (trades s) (balance s) ∧
    sl_hits s' = sl_hits s ∧ tp_hits s' = tp_hits s ∧
    total_trades s' = total_trades s ∧ last_row s' = last_row s.
Proof. apply (forced_sweep_from row (trades s) [] s). done. Qed.

Lemma Forall_exited_mark (l : list Trade) :
  Forall (λ trade, exited trade = true) (mark_exited <$> l).
Proof. apply Forall_fmap. by apply Forall_true. Qed.

Lemma trades_to_exit_nil (s : BackTester) :
  trades_to_exit s = [] ↔ Forall (λ trade, exited trade = true) (trades s).
Proof. apply open_from_nil. Qed.

(** ** Normal termination *)

Lemma _exit_trade_total row i a b (s : BackTester) :
  ¬ stake_amount s == 0 → ∃ s', _exit_trade (Some row) i a b s = Ok s'.
Proof.
  intros Hz. unfold _exit_trade.
  destruct (trades s !! i) as [trade|]; [|by eexists].
  destruct (exited trade); [by eexists|]. simpl.
  rewrite !(py_div_ok _ _ Hz). simpl.
  repeat match goal with
         | |- context [if ?c then _ else _] => destruct c
         end; by eexists.
Qed.

Lemma _exit_trades_total row a b (s : BackTester) :
  ¬ stake_amount s == 0 → ∃ s', _exit_trades (Some row) a b s = Ok s'.
Proof.
  unfold _exit_trades. generalize (trades_to_exit s) as idxs.
  intros idxs. revert s. induction idxs as [|i idxs IH]; intros s Hz.
  - by exists s.
  - destruct (_exit_trade_total row i a b s Hz) as (s1 & H1).
    rewrite for_each_cons, H1. simpl. apply IH.
    apply _exit_trade_params in H1 as (-> & _). done.
Qed.

Lemma _enter_long_total row (s : BackTester) :
  ¬ close row == 0 → ∃ s', _enter_long row s = Ok s'.
Proof.
  intros Hz. unfold _enter_long. rewrite (py_div_ok _ _ Hz).
  destruct (Qle_bool _ _); by eexists.
Qed.

Lemma on_signal_params row s s' : on_signal row s = Ok s' → same_params s s'.
Proof.
  unfold on_signal. repeat case_bool_decide.
  - apply _enter_long_params.
  - by intros [= <-].
  - apply _exit_trades_params.
  - by intros [= <-].
Qed.

Lemma on_signal_total row (s : BackTester) :
  ¬ close row == 0 → ∃ s', on_signal row s = Ok s'.
Proof.
  intros Hz. unfold on_signal. repeat case_bool_decide.
  - by apply _enter_long_total.
  - by eexists.
  - destruct (forced_sweep row s) as (s' & Hrun & _). by exists s'.
  - by eexists.
Qed.

Lemma backtest_row_inv row (s s' : BackTester) :
  backtest_row row s = Ok s' →
  ∃ s1 s2, on_signal row s = Ok s1 ∧
           _exit_trades (Some row) true false s1 = Ok s2 ∧
           s' = set_last_row (Some row) s2.
Proof.
  unfold backtest_row.
  intros (s1 & H1 & (s2 & H2 & [= <-])%bind_Ok)%bind_Ok. by exists s1, s2.
Qed.

Lemma backtest_row_params row s s' : backtest_row row s = Ok s' → same_params s s'.
Proof.
  intros (s1 & s2 & H1 & H2 & ->)%backtest_row_inv.
  apply on_signal_params in H1. apply _exit_trades_params in H2.
  destruct H1 as (E1 & E2 & E3), H2 as (F1 & F2 & F3).
  repeat split; simpl; congruence.
Qed.

Lemma backtest_row_total row (s : BackTester) :
  ¬ stake_amount s == 0 → ¬ close row == 0 → ∃ s', backtest_row row s = Ok s'.
Proof.
  intros Hs Hc. unfold backtest_row.
  destruct (on_signal_total row s Hc) as (s1 & H1). rewrite H1. simpl.
  destruct (_exit_trades_total row true false s1) as (s2 & H2).
  { apply on_signal_params in H1 as (-> & _). done. }
  rewrite H2. by eexists.
Qed.

Lemma backtest_loop_total (data_frame : list Bar) (s : BackTester) :
  ¬ stake_amount s == 0 → Forall (λ row, ¬ close row == 0) data_frame →
  ∃ s', backtest_loop data_frame s = Ok s'.
Proof.
  unfold backtest_loop. intros Hs Hdf. revert s Hs.
  induction Hdf as [|row df Hc Hdf IH]; intros s Hs.
  - by exists s.
  - destruct (backtest_row_total row s Hs Hc) as (s1 & H1).
    rewrite for_each_cons, H1. simpl. apply IH.
    apply backtest_row_params in H1 as (-> & _). done.
Qed.

(** After the loop, [last_row] is the last row of a frame that has one. *)
Lemma backtest_loop_last_row (data_frame : list Bar) (s s' : BackTester) row :
  backtest_loop data_frame s = Ok s' → last data_frame = Some row →
  last_row s' = Some row.
Proof.
  unfold backtest_loop. revert s.
  induction data_frame as [|r df IH]; intros s; [done|].
  rewrite for_each_cons. intros (s1 & H1 & H2)%bind_Ok Hlast.
  destruct df as [|r' df].
  - simpl in *. injection H2 as <-. injection Hlast as <-.
    apply backtest_row_inv in H1 as (? & ? & _ & _ & ->). done.
  - apply (IH s1); [done|]. by rewrite last_cons_cons in Hlast.
Qed.

(** ** C4 and C5: forced exits *)

(** C4. For a frame with at least one row, the liquidation of line 182 runs on
    the last row, raises nothing, and closes every position that the loop left
    open at that row's close price, whatever its profit or loss: in the ledger
    that [backtest] ends with, every position has [exited == True] and no open
    position remains.  The loop itself returns normally whenever the stake and
    the close prices are not zero. *)
Theorem C4_terminal_liquidation (data_frame : list Bar) (s : BackTester) :
  data_frame ≠ [] →
  (∀ s1, backtest_loop data_frame s = Ok s1 →
     ∃ row s', last data_frame = Some row ∧
       backtest_ledger data_frame s = Ok s' ∧
       trades s' = mark_exited <$> trades s1 ∧
       balance s' = sell_all row (trades s1) (balance s1)) ∧
  (∀ s', backtest_ledger data_frame s = Ok s' →
     Forall (λ trade, exited trade = true) (trades s') ∧ open_positions s' = 0%nat) ∧
  (∀ s' metrics, backtest data_frame s = Ok (s', metrics) →
     Forall (λ trade, exited trade = true) (trades s') ∧ open_positions s' = 0%nat) ∧
  (¬ stake_amount s == 0 → Forall (λ row, ¬ close row == 0) data_frame →
   ∃ s', backtest_ledger data_frame s = Ok s').
Proof.
  intros Hne.
  assert (∃ row, last data_frame = Some row) as (row & Hlast).
  { destruct (last data_frame) eqn:E; [by eexists|].
    by apply last_None in E. }
  assert (∀ s1, backtest_loop data_frame s = Ok s1 →
     ∃ s', backtest_ledger data_frame s = Ok s' ∧
       trades s' = mark_exited <$> trades s1 ∧
       balance s' = sell_all row (trades s1) (balance s1)) as Hliq.
  { intros s1 H1. unfold backtest_ledger. rewrite H1. simpl.
    rewrite (backtest_loop_last_row _ _ _ _ H1 Hlast).
    destruct (forced_sweep row s1) as (s' & H & Htr & _ & Hbal & _).
    by exists s'. }
  assert (∀ s', backtest_ledger data_frame s = Ok s' →
     Forall (λ trade, exited trade = true) (trades s') ∧ open_positions s' = 0%nat)
    as Hall.
  { intros s' H.
    assert (Forall (λ trade, exited trade = true) (trades s')) as HF.
    { unfold backtest_ledger in H. apply bind_Ok in H as (s1 & H1 & H2).
      destruct (Hliq s1 H1) as (s'' & H' & Htr & _).
      unfold backtest_ledger in H'. rewrite H1 in H'. simpl in H'.
      rewrite H2 in H'. injection H' as <-. rewrite Htr.
      apply Forall_exited_mark. }
    split; [done|]. unfold open_positions.
    by apply open_trades_nil in HF as ->. }
  split; [|split; [|split]].
  - intros s1 H1. destruct (Hliq s1 H1) as (s' & ?). by exists row, s'.
  - done.
  - intros s' metrics H. unfold backtest in H.
    apply bind_Ok in H as (s2 & H2 & H). apply bind_Ok in H as (m & _ & [= <- _]).
    by apply Hall.
  - intros Hs Hdf. destruct (backtest_loop_total _ _ Hs Hdf) as (s1 & H1).
    destruct (Hliq s1 H1) as (s' & H & _). by exists s'.
Qed.

Lemma C4_terminal_liquidation_witness :
  ∃ s', backtest_ledger
          [{| close := 10; signal := Some "enter_long"%string |};
           {| close := 11; signal := None |}]
          (__init__ KNNEMARibbonStrategy 1000) = Ok s' ∧
        Forall (λ trade, exited trade = true) (trades s').
Proof.
  destruct (C4_terminal_liquidation
              [{| close := 10; signal := Some "enter_long"%string |};
               {| close := 11; signal := None |}]
              (__init__ KNNEMARibbonStrategy 1000))
    as (_ & Hall & _ & Htotal).
  - discriminate.
  - destruct Htotal as (s' & Hrun).
    + discriminate.
    + repeat constructor; discriminate.
    + exists s'. split; [exact Hrun|]. apply (Hall s' Hrun).
Defined.

(** C5. On a bar whose signal is [exit_long], the signal handling returns
    normally with every position flagged [exited] (price and amount as they
    were), whether or not a stop-loss or take-profit threshold is met;
    [force_exits] has grown by the number of positions that were open at the
    start of the bar, and the balance by [amount * close] of each of them, at
    this bar's close.  [sl_hits] and [tp_hits] are as before.  The SL/TP sweep
    that follows on the same bar calls [_exit_trade] on no position and returns
    the state unchanged, so the bar ends in that state with [last_row] set. *)
Theorem C5_exit_long_closes_all (row : Bar) (s : BackTester) :
  signal row = Some "exit_long"%string →
  ∃ s1,
    on_signal row s = Ok s1 ∧
    trades s1 = mark_exited <$> trades s ∧
    open_positions s1 = 0%nat ∧
    force_exits s1 = (force_exits s + open_positions s)%nat ∧
    balance s1 = sell_all row (trades s) (balance s) ∧
    sl_hits s1 = sl_hits s ∧ tp_hits s1 = tp_hits s ∧
    _exit_trades_points (Some row) true false s1 = [] ∧
    _exit_trades (Some row) true false s1 = Ok s1 ∧
    backtest_row row s = Ok (set_last_row (Some row) s1).
Proof.
  intros Hsig.
  destruct (forced_sweep row s) as (s1 & H & Htr & Hfe & Hbal & Hsl & Htp & _).
  assert (on_signal row s = Ok s1) as Hon.
  { unfold on_signal. rewrite Hsig.
    rewrite bool_decide_eq_false_2 by discriminate.
    by rewrite bool_decide_eq_true_2. }
  assert (trades_to_exit s1 = []) as Hnone.
  { apply trades_to_exit_nil. rewrite Htr. apply Forall_exited_mark. }
  exists s1. repeat split; try done.
  - unfold open_positions. rewrite <-(length_open_from 0).
    fold (trades_to_exit s1). by rewrite Hnone.
  - unfold _exit_trades_points. by rewrite Hnone.
  - unfold _exit_trades. by rewrite Hnone.
  - unfold backtest_row. rewrite Hon. simpl.
    unfold _exit_trades. by rewrite Hnone.
Qed.

Lemma C5_exit_long_closes_all_witness :
  ∃ s1,
    on_signal {| close := 9; signal := Some "exit_long"%string |}
      (set_trades [{| price := 10; amount := 10; exited := false |}]
         (__init__ KNNStrategy 900)) = Ok s1 ∧
    open_positions s1 = 0%nat ∧ force_exits s1 = 1%nat.
Proof.
  destruct (C5_exit_long_closes_all
              {| close := 9; signal := Some "exit_long"%string |}
              (set_trades [{| price := 10; amount := 10; exited := false |}]
                 (__init__ KNNStrategy 900)) eq_refl)
    as (s1 & H & _ & Hopen & Hfe & _).
  exists s1. split; [exact H|]. split; [exact Hopen|]. exact Hfe.
Defined.

(** ** Properties kept along a run *)

Lemma for_each_points_last {X S : Type} (body : X → S → result S)
    (pts : X → S → list S) (xs : list X) (s s' : S) :
  (∀ x s s', body x s = Ok s' → last (pts x s) = Some s') →
  for_each body xs s = Ok s' →
  last (s :: for_each_points body pts xs s) = Some s'.
Proof.
  intros Hpts. revert s. induction xs as [|x xs IH]; intros s.
  - by intros [= <-].
  - rewrite for_each_cons. intros (s1 & H1 & H2)%bind_Ok. simpl. rewrite H1.
    apply Hpts in H1 as [p ->]%last_Some.
    rewrite <-app_assoc. simpl.
    change (s :: p ++ s1 :: for_each_points body pts xs s1)
      with ((s :: p) ++ s1 :: for_each_points body pts xs s1).
    rewrite last_app, (IH s1 H2). done.
Qed.

Section kept.
Variable I : BackTester → Prop.
Hypothesis I_exit : ∀ r i a b s s', I s → _exit_trade r i a b s = Ok s' → I s'.
Hypothesis I_enter : ∀ row s s',
  I s → last_action s ≠ Some "enter_long"%string →
  _enter_long row s = Ok s' → I s'.
Hypothesis I_last_row : ∀ v s, I s → I (set_last_row v s).

Lemma _exit_trades_keeps r a b s s' :
  I s → _exit_trades r a b s = Ok s' → I s'.
Proof.
  unfold _exit_trades. intros Hs.
  apply (for_each_invariant I); [|done].
  intros i s1 s2. apply I_exit.
Qed.

Lemma _exit_trades_points_keep r a b s :
  I s → Forall I (_exit_trades_points r a b s).
Proof.
  unfold _exit_trades_points. apply for_each_points_Forall.
  - intros i s1 Hs1. destruct (_exit_trade r i a b s1) as [s2|e] eqn:E;
      simpl; [|constructor].
    repeat constructor. by eapply I_exit.
  - intros i s1 s2. apply I_exit.
Qed.

Lemma on_signal_keeps row s s' : I s → on_signal row s = Ok s' → I s'.
Proof.
  unfold on_signal. intros Hs. repeat case_bool_decide.
  - by apply I_enter.
  - by intros [= <-].
  - by apply _exit_trades_keeps.
  - by intros [= <-].
Qed.

Lemma on_signal_points_keep row s : I s → Forall I (on_signal_points row s).
Proof.
  unfold on_signal_points. intros Hs. repeat case_bool_decide.
  - destruct (_enter_long row s) as [s'|e] eqn:E; simpl; [|constructor].
    repeat constructor. by eapply I_enter.
  - constructor.
  - by apply _exit_trades_points_keep.
  - constructor.
Qed.

Lemma backtest_row_keeps row s s' : I s → backtest_row row s = Ok s' → I s'.
Proof.
  intros Hs (s1 & s2 & H1 & H2 & ->)%backtest_row_inv.
  apply I_last_row. eapply _exit_trades_keeps; [|done].
  by eapply on_signal_keeps.
Qed.

Lemma backtest_row_points_keep row s :
  I s → Forall I (backtest_row_points row s).
Proof.
  unfold backtest_row_points. intros Hs.
  apply Forall_app. split; [by apply on_signal_points_keep|].
  destruct (on_signal row s) as [s1|e] eqn:E1; [|constructor].
  apply Forall_app. split.
  - apply _exit_trades_points_keep. by eapply on_signal_keeps.
  - destruct (backtest_row row s) as [s'|e] eqn:E; simpl; [|constructor].
    repeat constructor. by eapply backtest_row_keeps.
Qed.

Lemma backtest_loop_keeps data_frame s s' :
  I s → backtest_loop data_frame s = Ok s' → I s'.
Proof.
  unfold backtest_loop. intros Hs.
  apply (for_each_invariant I); [|done].
  intros row s1 s2. apply backtest_row_keeps.
Qed.

(** [I] holds at every point of [backtest] when it holds at the start. *)
Lemma backtest_points_keep data_frame s :
  I s → Forall I (backtest_points data_frame s).
Proof.
  unfold backtest_points. intros Hs. constructor; [done|].
  apply Forall_app. split.
  - apply for_each_points_Forall; [| |done].
    + intros row s1. apply backtest_row_points_keep.
    + intros row s1 s2. apply backtest_row_keeps.
  - destruct (backtest_loop data_frame s) as [s1|e] eqn:E; [|constructor].
    apply _exit_trades_points_keep. by eapply backtest_loop_keeps.
Qed.
End kept.

(** The points of a run end in the ledger that [backtest] ends with, and
    contain the state at the end of every bar. *)
Lemma _exit_trades_points_last r a b (s s' : BackTester) :
  _exit_trades r a b s = Ok s' →
  last (s :: _exit_trades_points r a b s) = Some s'.
Proof.
  unfold _exit_trades, _exit_trades_points. apply for_each_points_last.
  intros i s1 s2 H. by rewrite H.
Qed.

Lemma backtest_row_points_last row (s s' : BackTester) :
  backtest_row row s = Ok s' → last (backtest_row_points row s) = Some s'.
Proof.
  intros H. unfold backtest_row_points.
  pose proof H as (s1 & s2 & H1 & _)%backtest_row_inv.
  rewrite H1, H. simpl. by rewrite !last_app.
Qed.

Lemma backtest_points_last data_frame (s s' : BackTester) :
  backtest_ledger data_frame s = Ok s' →
  last (backtest_points data_frame s) = Some s'.
Proof.
  unfold backtest_ledger. intros (s1 & H1 & H2)%bind_Ok.
  unfold backtest_points. rewrite H1.
  pose proof (for_each_points_last backtest_row backtest_row_points
                data_frame s s1 backtest_row_points_last H1) as [p Hp]%last_Some.
  rewrite app_comm_cons, Hp, <-app_assoc. simpl.
  rewrite last_app. by rewrite (_exit_trades_points_last _ _ _ _ _ H2).
Qed.

Lemma backtest_points_bar (pre post : list Bar) (s s1 : BackTester) :
  backtest_loop pre s = Ok s1 → s1 ∈ backtest_points (pre ++ post) s.
Proof.
  unfold backtest_loop, backtest_points. intros H.
  rewrite app_comm_cons. apply elem_of_app. left.
  revert s H. induction pre as [|row pre IH]; intros s.
  - intros [= <-]. apply elem_of_cons. by left.
  - rewrite for_each_cons. intros (s2 & H2 & H)%bind_Ok.
    simpl. rewrite H2. apply elem_of_cons. right.
    apply backtest_row_points_last in H2 as [p Hp]%last_Some.
    rewrite Hp, <-app_assoc. apply elem_of_app. right. simpl.
    by apply IH.
Qed.

(** ** C1: at most one open position *)

Lemma settle_positions i trade pv (s s0 : BackTester) :
  trades s !! i = Some trade → exited trade = false → trades s0 = trades s →
  open_positions s = S (open_positions (settle i trade pv s0)) ∧
  closed_positions (settle i trade pv s0) = S (closed_positions s).
Proof.
  intros Hi He Htr. unfold open_positions, closed_positions.
  rewrite settle_trades, Htr. by apply open_trades_insert.
Qed.

Lemma one_open_exit r i a b (s s' : BackTester) :
  one_open s → _exit_trade r i a b s = Ok s' → one_open s'.
Proof.
  intros Hs H.
  apply _exit_trade_inv in H as [->|(t & row & s0 & _ & Hi & He & Hb & ->)]; [done|].
  apply booked_frame in Hb as (Htr & _).
  destruct (settle_positions i t (amount t * close row) s s0 Hi He Htr) as [Ho _].
  left. destruct Hs as [Hs|[Hs _]]; lia.
Qed.

Lemma one_open_enter row (s s' : BackTester) :
  one_open s → last_action s ≠ Some "enter_long"%string →
  _enter_long row s = Ok s' → one_open s'.
Proof.
  intros Hs Hla H. apply _enter_long_inv in H as [->|(_ & _ & ->)]; [done|].
  destruct Hs as [Hs|[_ Hs]]; [|done].
  right. split; [|done]. unfold open_positions in *. simpl.
  rewrite open_trades_app, length_app, Hs. done.
Qed.

Lemma one_open_init strategy starting_balance :
  one_open (__init__ strategy starting_balance).
Proof. by left. Qed.

(** C1. Start from a freshly constructed [BackTester] ([trades] empty,
    [last_action = None]) and take any frame and parameters.  At every point of
    [backtest] (after each call to [_enter_long] and to [_exit_trade], at the
    end of each bar, during and after the final liquidation) at most one
    position has [exited == False], and when one has, [last_action] is
    ["enter_long"], which bars the next entry.  In particular this holds for
    the state after any number of bars and for the final ledger.  The signal
    handling of a bar adds a position only on an [enter_long] signal with
    [last_action != "enter_long"], and then sets [last_action] to
    ["enter_long"]; a call of [_exit_trade] changes [last_action] only when it
    closes a position. *)
Theorem C1_at_most_one_open (strategy : Strategy.t) (starting_balance : Q)
    (data_frame : list Bar) :
  let s0 := __init__ strategy starting_balance in
  Forall (λ s, (open_positions s ≤ 1)%nat ∧
               (open_positions s = 1%nat →
                last_action s = Some "enter_long"%string))
    (backtest_points data_frame s0) ∧
  (∀ pre post s, data_frame = pre ++ post → backtest_loop pre s0 = Ok s →
     (open_positions s ≤ 1)%nat) ∧
  (∀ s, backtest_ledger data_frame s0 = Ok s → (open_positions s ≤ 1)%nat) ∧
  (∀ row s s', on_signal row s = Ok s' →
     length (trades s') ≠ length (trades s) →
     signal row = Some "enter_long"%string ∧
     last_action s ≠ Some "enter_long"%string ∧
     last_action s' = Some "enter_long"%string) ∧
  (∀ r i a b s s', _exit_trade r i a b s = Ok s' →
     last_action s' ≠ last_action s →
     closed_positions s' = S (closed_positions s)).
Proof.
  intros s0.
  assert (Forall (λ s, (open_positions s ≤ 1)%nat ∧
                       (open_positions s = 1%nat →
                        last_action s = Some "enter_long"%string))
            (backtest_points data_frame s0)) as Hpts.
  { eapply Forall_impl.
    - apply (backtest_points_keep one_open one_open_exit one_open_enter).
      + by intros v s.
      + apply one_open_init.
    - intros s [Hs|[Hs Hla]]; split; intros; (lia || done). }
  split; [done|]. split; [|split; [|split]].
  - intros pre post s -> Hs.
    apply (backtest_points_bar pre post) in Hs.
    rewrite Forall_forall in Hpts. by apply Hpts in Hs as [? _].
  - intros s Hs. apply backtest_points_last, last_Some_elem_of in Hs.
    rewrite Forall_forall in Hpts. by apply Hpts in Hs as [? _].
  - intros row s s' Hon Hlen. unfold on_signal in Hon.
    repeat case_bool_decide.
    + apply _enter_long_inv in Hon as [->|(_ & _ & ->)]; done.
    + by injection Hon as <-.
    + destruct (forced_sweep row s) as (s'' & Hrun & Htr & _).
      rewrite Hrun in Hon. injection Hon as <-.
      by rewrite Htr, length_fmap in Hlen.
    + by injection Hon as <-.
  - intros r i a b s s' H Hla.
    apply _exit_trade_inv in H as [->|(t & row & s1 & _ & Hi & He & Hb & ->)];
      [done|].
    apply booked_frame in Hb as (Htr & _).
    by destruct (settle_positions i t (amount t * close row) s s1 Hi He Htr).
Qed.

Lemma C1_at_most_one_open_witness :
  Forall (λ s, (open_positions s ≤ 1)%nat)
    (backtest_points
       [{| close := 10; signal := Some "enter_long"%string |};
        {| close := 10; signal := Some "enter_long"%string |};
        {| close := 12; signal := None |};
        {| close := 11; signal := Some "enter_long"%string |}]
       (__init__ KNNEMARibbonStrategy 1000)).
Proof.
  eapply Forall_impl.
  - apply (C1_at_most_one_open KNNEMARibbonStrategy 1000
             [{| close := 10; signal := Some "enter_long"%string |};
              {| close := 10; signal := Some "enter_long"%string |};
              {| close := 12; signal := None |};
              {| close := 11; signal := Some "enter_long"%string |}]).
  - intros s [H _]. exact H.
Defined.

(** ** C6: wins, losses and closed positions *)

Lemma booked_accounting pv a b (s s0 : BackTester) :
  booked pv a b s s0 →
  (stake_amount s < pv ∧ wins s0 = wins s ++ [pv - stake_amount s] ∧
   losses s0 = losses s ∧ breakeven_exits s0 = breakeven_exits s) ∨
  (pv < stake_amount s ∧ losses s0 = losses s ++ [stake_amount s - pv] ∧
   wins s0 = wins s ∧ breakeven_exits s0 = breakeven_exits s) ∨
  (pv == stake_amount s ∧ b = true ∧ wins s0 = wins s ∧ losses s0 = losses s ∧
   force_exits s0 = (force_exits s + 1)%nat ∧
   breakeven_exits s0 = S (breakeven_exits s)).
Proof.
  destruct 1; simpl.
  - right. left. done.
  - right. left. done.
  - left. done.
  - left. done.
  - right. right. repeat split; try done. by apply Qle_antisym.
Qed.

Lemma reconciled_exit r i a b (s s' : BackTester) :
  reconciled s → _exit_trade r i a b s = Ok s' → reconciled s'.
Proof.
  unfold reconciled. intros Hs H.
  apply _exit_trade_inv in H as [->|(t & row & s0 & _ & Hi & He & Hb & ->)]; [done|].
  pose proof (booked_frame _ _ _ _ _ Hb) as (Htr & _).
  destruct (settle_positions i t (amount t * close row) s s0 Hi He Htr) as [_ ->].
  simpl.
  destruct (booked_accounting _ _ _ _ _ Hb)
    as [(_ & -> & -> & ->)|[(_ & -> & -> & ->)|(_ & _ & -> & -> & _ & ->)]];
    rewrite ?length_app; simpl; lia.
Qed.

Lemma reconciled_enter row (s s' : BackTester) :
  reconciled s → _enter_long row s = Ok s' → reconciled s'.
Proof.
  unfold reconciled, closed_positions. intros Hs H.
  apply _enter_long_inv in H as [->|(_ & _ & ->)]; [done|].
  simpl. rewrite closed_trades_app, length_app. simpl. lia.
Qed.

(** C6. In a run from a freshly constructed [BackTester], at every point,
    [len(wins) + len(losses)] plus the number of forced exits taken at exact
    break-even (the executions of line 119, counted by [breakeven_exits])
    equals the number of positions with [exited == True].  Every call of
    [_exit_trade] on an open position that returns either leaves the state as
    it was or closes the position, and then it adds [amount * close] to the
    balance and does exactly one of: append [position_value - stake_amount] to
    [wins] (when [position_value > stake_amount]); append [stake_amount -
    position_value] to [losses] (when [position_value < stake_amount]); or, at
    [position_value = stake_amount] under [force_exit], add one to
    [force_exits] and append nothing. *)
Theorem C6_win_loss_accounting :
  (∀ strategy starting_balance data_frame,
     Forall (λ s, (length (wins s) + length (losses s) + breakeven_exits s)%nat =
                  closed_positions s)
       (backtest_points data_frame (__init__ strategy starting_balance))) ∧
  (∀ row i a b (s s' : BackTester) trade,
     trades s !! i = Some trade → exited trade = false →
     _exit_trade (Some row) i a b s = Ok s' →
     let pv := amount trade * close row in
     s' = s ∨
     (trades s' = <[i := mark_exited trade]> (trades s) ∧
      closed_positions s' = S (closed_positions s) ∧
      balance s' = balance s + pv ∧
      ((stake_amount s < pv ∧ wins s' = wins s ++ [pv - stake_amount s] ∧
        losses s' = losses s ∧ breakeven_exits s' = breakeven_exits s) ∨
       (pv < stake_amount s ∧ losses s' = losses s ++ [stake_amount s - pv] ∧
        wins s' = wins s ∧ breakeven_exits s' = breakeven_exits s) ∨
       (pv == stake_amount s ∧ b = true ∧ wins s' = wins s ∧
        losses s' = losses s ∧ force_exits s' = (force_exits s + 1)%nat ∧
        breakeven_exits s' = S (breakeven_exits s))))).
Proof.
  split.
  - intros strategy starting_balance data_frame.
    apply (backtest_points_keep reconciled reconciled_exit).
    + intros row s s' Hs _. by apply reconciled_enter.
    + by intros v s.
    + done.
  - intros row i a b s s' trade Hi He H pv.
    apply _exit_trade_inv in H
      as [->|(t & row' & s0 & [= <-] & Hi' & _ & Hb & ->)]; [by left|].
    right. rewrite Hi in Hi'. injection Hi' as <-. fold pv in Hb |- *.
    pose proof (booked_frame _ _ _ _ _ Hb) as (Htr & Hbal & _).
    destruct (settle_positions i trade pv s s0 Hi He Htr) as [_ Hcl].
    split; [by rewrite settle_trades, Htr|]. split; [done|].
    split; [simpl; by rewrite Hbal|].
    apply (booked_accounting _ _ _ _ _ Hb).
Qed.

Lemma C6_win_loss_accounting_witness :
  ∃ s', _exit_trade (Some {| close := 9; signal := None |}) 0 true false
          (set_trades [{| price := 10; amount := 10; exited := false |}]
             (__init__ KNNEMARibbonStrategy 900)) = Ok s' ∧
        closed_positions s' = 1%nat ∧ length (losses s') = 1%nat ∧
        length (wins s') = 0%nat.
Proof.
  eexists. split; [vm_compute; reflexivity|].
  destruct C6_win_loss_accounting as [_ Hcall].
  destruct (Hcall {| close := 9; signal := None |} 0%nat true false
              (set_trades [{| price := 10; amount := 10; exited := false |}]
                 (__init__ KNNEMARibbonStrategy 900))
              _ {| price := 10; amount := 10; exited := false |}
              eq_refl eq_refl eq_refl)
    as [Hsame|(_ & Hcl & _ & Hcase)].
  - discriminate Hsame.
  - split; [exact Hcl|]. split; reflexivity.
Defined.

(** ** The SL/TP sweep: [_exit_trades(row, True)] *)

(** The loop of [_exit_trades] over distinct positions: a position outside the
    list is untouched, and a position in the list ends as the one call of
    [_exit_trade] on it left it, a call that found the position as it was at
    the start of the loop. *)
Lemma exit_loop_spec r a b (idxs : list nat) :
  NoDup idxs →
  ∀ s s', for_each (λ i, _exit_trade r i a b) idxs s = Ok s' →
    (∀ j, j ∉ idxs → trades s' !! j = trades s !! j) ∧
    (∀ j, j ∈ idxs →
       ∃ sj sj', same_params s sj ∧ trades sj !! j = trades s !! j ∧
                 _exit_trade r j a b sj = Ok sj' ∧
                 trades s' !! j = trades sj' !! j).
Proof.
  induction 1 as [|i idxs Hi Hnd IH]; intros s s'.
  - intros [= <-]. split; [done|]. by intros j ?%elem_of_nil.
  - rewrite for_each_cons. intros (s1 & H1 & Hrest)%bind_Ok.
    destruct (IH s1 s' Hrest) as [Hout Hin]. split.
    + intros j Hj. apply not_elem_of_cons in Hj as [Hji Hj].
      rewrite (Hout j Hj). by eapply _exit_trade_other.
    + intros j [->|Hj]%elem_of_cons.
      * exists s, s1. split; [done|]. split; [done|]. split; [done|].
        by apply Hout.
      * destruct (Hin j Hj) as (sj & sj' & Hp & Htr & Hcall & Hend).
        exists sj, sj'. split.
        { eapply same_params_trans; [|done]. by eapply _exit_trade_params. }
        split; [|done]. rewrite Htr. eapply _exit_trade_other; [done|].
        by intros ->.
Qed.

(** One call of the sweep on an open position, in terms of the position. *)
Lemma sl_tp_exit_result row i (s s' : BackTester) trade :
  trades s !! i = Some trade → exited trade = false →
  _exit_trade (Some row) i true false s = Ok s' →
  let pv := amount trade * close row in
  ∃ trade',
    trades s' !! i = Some trade' ∧
    price trade' = price trade ∧ amount trade' = amount trade ∧
    (pv < stake_amount s →
     (exited trade' = true ↔
      stop_loss s <= (stake_amount s - pv) / stake_amount s)) ∧
    (stake_amount s < pv →
     (exited trade' = true ↔
      take_profit s <= (pv - stake_amount s) / stake_amount s)) ∧
    (pv == stake_amount s → exited trade' = false).
Proof.
  intros Hi He H pv. unfold _exit_trade in H. rewrite Hi, He in H.
  simpl in H. fold pv in H.
  assert (<[i := mark_exited trade]> (trades s) !! i = Some (mark_exited trade))
    as Hins by (apply list_lookup_insert_eq; by eapply lookup_lt_Some).
  destruct (Qlt_bool pv (stake_amount s)) eqn:Hlt.
  { apply Qlt_bool_iff in Hlt. apply bind_Ok in H as (q & [Hz ->]%py_div_inv & H).
    destruct (Qle_bool _ _) eqn:Hsl; injection H as <-.
    - apply Qle_bool_iff in Hsl. exists (mark_exited trade).
      repeat split; try done; intros; lra.
    - apply Qle_bool_gt in Hsl. exists trade.
      repeat split; try done; intros; (lra || congruence). }
  apply Qlt_bool_ge in Hlt.
  destruct (Qlt_bool (stake_amount s) pv) eqn:Hgt.
  { apply Qlt_bool_iff in Hgt. apply bind_Ok in H as (q & [Hz ->]%py_div_inv & H).
    destruct (Qle_bool _ _) eqn:Htp; injection H as <-.
    - apply Qle_bool_iff in Htp. exists (mark_exited trade).
      repeat split; try done; intros; lra.
    - apply Qle_bool_gt in Htp. exists trade.
      repeat split; try done; intros; (lra || congruence). }
  apply Qlt_bool_ge in Hgt. injection H as <-. exists trade.
  repeat split; try done; intros; lra.
Qed.

(** ** C3: the thresholds *)

(** C3. Take an open position of quantity [amount] and a bar of close
    [close], with [position_value = amount * close] and a stake that is not
    zero.  In the SL/TP sweep ([is_sl_tp = True], [force_exit = False]):
    below the stake, [_exit_trade] closes the position and adds one to
    [sl_hits] when [(stake_amount - position_value) / stake_amount >=
    stop_loss], equality included, and returns the state unchanged when that
    ratio is smaller; above the stake it closes the position and adds one to
    [tp_hits] when [(position_value - stake_amount) / stake_amount >=
    take_profit], equality included, and returns the state unchanged when that
    ratio is smaller; at the stake it returns the state unchanged.  The whole
    sweep [_exit_trades(row, True)] returns normally, and a position that was
    open before it is closed after it exactly when its threshold is reached. *)
Theorem C3_sl_tp_thresholds (row : Bar) (s : BackTester) :
  ¬ stake_amount s == 0 →
  (∀ i trade, trades s !! i = Some trade → exited trade = false →
     let pv := amount trade * close row in
     let loss_ratio := (stake_amount s - pv) / stake_amount s in
     let gain_ratio := (pv - stake_amount s) / stake_amount s in
     (pv < stake_amount s → stop_loss s <= loss_ratio →
      ∃ s', _exit_trade (Some row) i true false s = Ok s' ∧
            trades s' = <[i := mark_exited trade]> (trades s) ∧
            sl_hits s' = (sl_hits s + 1)%nat ∧ tp_hits s' = tp_hits s ∧
            force_exits s' = force_exits s) ∧
     (pv < stake_amount s → loss_ratio < stop_loss s →
      _exit_trade (Some row) i true false s = Ok s) ∧
     (stake_amount s < pv → take_profit s <= gain_ratio →
      ∃ s', _exit_trade (Some row) i true false s = Ok s' ∧
            trades s' = <[i := mark_exited trade]> (trades s) ∧
            tp_hits s' = (tp_hits s + 1)%nat ∧ sl_hits s' = sl_hits s ∧
            force_exits s' = force_exits s) ∧
     (stake_amount s < pv → gain_ratio < take_profit s →
      _exit_trade (Some row) i true false s = Ok s) ∧
     (pv == stake_amount s →
      _exit_trade (Some row) i true false s = Ok s)) ∧
  (∃ s', _exit_trades (Some row) true false s = Ok s' ∧
     ∀ i trade, trades s !! i = Some trade → exited trade = false →
       let pv := amount trade * close row in
       ∃ trade',
         trades s' !! i = Some trade' ∧
         price trade' = price trade ∧ amount trade' = amount trade ∧
         (pv < stake_amount s →
          (exited trade' = true ↔
           stop_loss s <= (stake_amount s - pv) / stake_amount s)) ∧
         (stake_amount s < pv →
          (exited trade' = true ↔
           take_profit s <= (pv - stake_amount s) / stake_amount s)) ∧
         (pv == stake_amount s → exited trade' = false)).
Proof.
  intros Hz. split.
  - intros i trade Hi He pv loss_ratio gain_ratio.
    unfold _exit_trade. rewrite Hi, He. simpl. fold pv.
    rewrite !(py_div_ok _ _ Hz). simpl. fold loss_ratio gain_ratio.
    repeat split.
    + intros Hlt%Qlt_bool_iff Hsl%Qle_bool_iff. rewrite Hlt, Hsl.
      by eexists.
    + intros Hlt%Qlt_bool_iff Hsl%Qle_bool_gt. by rewrite Hlt, Hsl.
    + intros Hgt Htp%Qle_bool_iff.
      assert (Qlt_bool pv (stake_amount s) = false) as ->
        by (apply Qlt_bool_ge; lra).
      apply Qlt_bool_iff in Hgt. rewrite Hgt, Htp. by eexists.
    + intros Hgt Htp%Qle_bool_gt.
      assert (Qlt_bool pv (stake_amount s) = false) as ->
        by (apply Qlt_bool_ge; lra).
      apply Qlt_bool_iff in Hgt. by rewrite Hgt, Htp.
    + intros Heq.
      assert (Qlt_bool pv (stake_amount s) = false) as ->
        by (apply Qlt_bool_ge; lra).
      assert (Qlt_bool (stake_amount s) pv = false) as ->
        by (apply Qlt_bool_ge; lra).
      done.
  - destruct (_exit_trades_total row true false s Hz) as (s' & Hrun).
    exists s'. split; [done|]. intros i trade Hi He.
    unfold _exit_trades in Hrun.
    apply exit_loop_spec in Hrun as [_ Hin]; [|apply NoDup_open_from].
    destruct (Hin i) as (sj & sj' & (Hst & Hsl & Htp) & Htr & Hcall & ->).
    { apply elem_of_trades_to_exit. by exists trade. }
    rewrite Hi in Htr.
    pose proof (sl_tp_exit_result row i sj sj' trade Htr He Hcall) as Hres.
    by rewrite Hst, Hsl, Htp in Hres.
Qed.

Lemma C3_sl_tp_thresholds_witness :
  ∃ s', _exit_trade (Some {| close := 9; signal := None |}) 0 true false
          (set_trades [{| price := 10; amount := 10; exited := false |}]
             (__init__ {| Strategy.stake_amount := 100;
                          Strategy.stop_loss := 1 # 10;
                          Strategy.take_profit := 2 # 10 |} 900)) = Ok s' ∧
        sl_hits s' = 1%nat ∧ tp_hits s' = 0%nat.
Proof.
  destruct (C3_sl_tp_thresholds {| close := 9; signal := None |}
              (set_trades [{| price := 10; amount := 10; exited := false |}]
                 (__init__ {| Strategy.stake_amount := 100;
                              Strategy.stop_loss := 1 # 10;
                              Strategy.take_profit := 2 # 10 |} 900)))
    as [Hcall _].
  - discriminate.
  - destruct (Hcall 0%nat {| price := 10; amount := 10; exited := false |}
                eq_refl eq_refl) as [Hsl _].
    destruct Hsl as (s' & Hrun & _ & Hhits & Htp & _).
    + reflexivity.
    + discriminate.
    + exists s'. split; [exact Hrun|]. split; [exact Hhits|exact Htp].
Defined.

(** ** C10: the entry bar *)

(** Without [force_exit], a position worth exactly the stake is left alone. *)
Lemma unforced_exit_even row i a (s : BackTester) trade :
  trades s !! i = Some trade → exited trade = false →
  amount trade * close row == stake_amount s →
  _exit_trade (Some row) i a false s = Ok s.
Proof.
  intros Hi He Heq. unfold _exit_trade. rewrite Hi, He. simpl.
  assert (Qlt_bool (amount trade * close row) (stake_amount s) = false) as ->
    by (apply Qlt_bool_ge; lra).
  assert (Qlt_bool (stake_amount s) (amount trade * close row) = false) as ->
    by (apply Qlt_bool_ge; lra).
  done.
Qed.

(** C10. In exact arithmetic, a position opened on a bar (enough balance, a
    close price that is not zero) has [amount = stake_amount / close], so on
    that same bar [amount * close] equals [stake_amount]: the call of
    [_exit_trade] that the SL/TP sweep makes on it takes the "No change" branch
    and returns the state as it is, all counters included.  After the sweep of
    the entry bar, and at the end of the entry bar, the position is still in
    the ledger with [exited == False]. *)
Theorem C10_entry_bar_not_swept (row : Bar) (s : BackTester) :
  stake_amount s <= balance s → ¬ close row == 0 →
  ∃ s1 trade,
    _enter_long row s = Ok s1 ∧
    trades s1 = trades s ++ [trade] ∧
    exited trade = false ∧
    amount trade = stake_amount s / close row ∧
    amount trade * close row == stake_amount s1 ∧
    _exit_trade (Some row) (length (trades s)) true false s1 = Ok s1 ∧
    (∀ s2, _exit_trades (Some row) true false s1 = Ok s2 →
       trades s2 !! length (trades s) = Some trade) ∧
    (signal row = Some "enter_long"%string →
     last_action s ≠ Some "enter_long"%string →
     ∀ s3, backtest_row row s = Ok s3 →
       trades s3 !! length (trades s) = Some trade).
Proof.
  intros Hbal Hz.
  pose proof (_enter_long_funded row s Hbal Hz) as Henter.
  set (trade := {| price := close row; amount := stake_amount s / close row;
                   exited := false |}) in *.
  match type of Henter with _ = Ok ?x => set (s1 := x) in * end.
  assert (amount trade * close row == stake_amount s1) as Heq
    by (simpl; field; done).
  assert (trades s1 !! length (trades s) = Some trade) as Hk
    by (simpl; by apply list_lookup_middle).
  assert (∀ s2, _exit_trades (Some row) true false s1 = Ok s2 →
            trades s2 !! length (trades s) = Some trade) as Hsweep.
  { intros s2 Hrun. unfold _exit_trades in Hrun.
    apply exit_loop_spec in Hrun as [_ Hin]; [|apply NoDup_open_from].
    destruct (Hin (length (trades s))) as (sj & sj' & (Hst & _) & Htr & Hcall & ->).
    { apply elem_of_trades_to_exit. by exists trade. }
    rewrite Hk in Htr.
    rewrite (unforced_exit_even row _ true sj trade Htr eq_refl) in Hcall.
    - by injection Hcall as <-.
    - by rewrite Hst. }
  exists s1, trade. repeat split; try done.
  - by apply (unforced_exit_even row _ true s1 trade).
  - intros Hsig Hla s3 (s1' & s2 & Hon & Hrun & ->)%backtest_row_inv.
    unfold on_signal in Hon. rewrite Hsig in Hon.
    rewrite bool_decide_eq_true_2 in Hon by done.
    rewrite bool_decide_eq_true_2 in Hon by done.
    rewrite Henter in Hon. injection Hon as <-. simpl. by apply Hsweep.
Qed.

Lemma C10_entry_bar_not_swept_witness :
  ∃ s1, _enter_long {| close := 8; signal := Some "enter_long"%string |}
          (__init__ KNNStrategy 1000) = Ok s1 ∧
        _exit_trade (Some {| close := 8; signal := Some "enter_long"%string |})
          0 true false s1 = Ok s1.
Proof.
  destruct (C10_entry_bar_not_swept
              {| close := 8; signal := Some "enter_long"%string |}
              (__init__ KNNStrategy 1000))
    as (s1 & trade & Henter & _ & _ & _ & _ & Hcall & _).
  - discriminate.
  - discriminate.
  - exists s1. split; [exact Henter|exact Hcall].
Defined.

(** ** C2: the metrics *)

Lemma _calculate_metrics_raises (s : BackTester) :
  total_trades s = 0%nat ∨ losses s = [] →
  _calculate_metrics s = Raise ZeroDivisionError.
Proof.
  intros Hdeg. unfold _calculate_metrics.
  destruct (decide (total_trades s = 0%nat)) as [Ht|Ht].
  - rewrite (py_div_zero (Q_of_nat (length (wins s))) (Q_of_nat (total_trades s)))
      by (by apply Q_of_nat_zero).
    reflexivity.
  - destruct Hdeg as [?|Hl]; [done|].
    rewrite !(py_div_ok _ (Q_of_nat (total_trades s)))
      by (by rewrite Q_of_nat_zero).
    simpl.
    rewrite py_div_zero by (apply Q_of_nat_zero; by rewrite Hl). reflexivity.
Qed.

(** C2, as the code has it.  [_calculate_metrics] on a ledger with
    [total_trades == 0] or with no recorded loss raises [ZeroDivisionError]:
    no metrics are returned and no field holds a sentinel.  On any other
    ledger it returns the metrics, with [win_% = wins / total_trades * 100],
    [loss_% = losses / total_trades * 100] and [w/l_ratio = wins / losses]. *)
Theorem C2_degenerate_metrics_raise (s : BackTester) :
  (total_trades s = 0%nat ∨ losses s = [] →
   _calculate_metrics s = Raise ZeroDivisionError) ∧
  (total_trades s ≠ 0%nat → losses s ≠ [] →
   ∃ metrics,
     _calculate_metrics s = Ok metrics ∧
     m_win_pct metrics =
       [Q_of_nat (length (wins s)) / Q_of_nat (total_trades s) * 100] ∧
     m_loss_pct metrics =
       [Q_of_nat (length (losses s)) / Q_of_nat (total_trades s) * 100] ∧
     m_wl_ratio metrics =
       [Q_of_nat (length (wins s)) / Q_of_nat (length (losses s))]).
Proof.
  split; [apply _calculate_metrics_raises|].
  intros Ht Hl. unfold _calculate_metrics.
  rewrite !(py_div_ok _ (Q_of_nat (total_trades s))) by (by rewrite Q_of_nat_zero).
  simpl. rewrite py_div_ok.
  - by eexists.
  - rewrite Q_of_nat_zero. by intros ?%nil_length_inv.
Qed.

Lemma C2_degenerate_metrics_raise_witness :
  _calculate_metrics (__init__ KNNStrategy 1000) = Raise ZeroDivisionError ∧
  ∃ metrics,
    _calculate_metrics
      (set_total_trades 1 (set_losses [10] (__init__ KNNStrategy 990))) =
    Ok metrics ∧ m_loss_pct metrics = [1 / 1 * 100].
Proof.
  split.
  - apply (C2_degenerate_metrics_raise (__init__ KNNStrategy 1000)).
    left. reflexivity.
  - destruct (C2_degenerate_metrics_raise
                (set_total_trades 1 (set_losses [10] (__init__ KNNStrategy 990))))
      as [_ Hok].
    destruct Hok as (metrics & Hrun & _ & Hloss & _).
    + discriminate.
    + discriminate.
    + exists metrics. split; [exact Hrun|exact Hloss].
Defined.

(** C2, a run without a loss.  The frame (close 10, [enter_long]), (close 12)
    with [take_profit = 0.20] ends with one trade, one win and no loss.  The
    metrics of that final ledger are not reported, with or without a sentinel:
    the computation of [w/l_ratio] raises [ZeroDivisionError], which
    [backtest] propagates.  So does the computation of [win_%] on a ledger
    with [total_trades == 0]. *)
Lemma C2_undefined_metrics_counterexample :
  let strategy := {| Strategy.stake_amount := 100;
                     Strategy.stop_loss := 1 # 10;
                     Strategy.take_profit := 2 # 10 |} in
  let data_frame := [{| close := 10; signal := Some "enter_long"%string |};
                     {| close := 12; signal := None |}] in
  (∃ s, backtest_ledger data_frame (__init__ strategy 1000) = Ok s ∧
        total_trades s = 1%nat ∧ length (wins s) = 1%nat ∧ losses s = [] ∧
        ¬ (∃ metrics, _calculate_metrics s = Ok metrics) ∧
        _calculate_metrics s = Raise ZeroDivisionError) ∧
  backtest data_frame (__init__ strategy 1000) = Raise ZeroDivisionError ∧
  total_trades (__init__ strategy 1000) = 0%nat ∧
  ¬ (∃ metrics, _calculate_metrics (__init__ strategy 1000) = Ok metrics).
Proof.
  intros strategy data_frame. split; [|split; [|split]].
  - eexists. split; [vm_compute; reflexivity|].
    repeat split; try reflexivity.
    intros (metrics & H). vm_compute in H. discriminate H.
  - vm_compute. reflexivity.
  - reflexivity.
  - intros (metrics & H). vm_compute in H. discriminate H.
Qed.

(** ** C9: the stop-loss scenario *)

(** The stop-loss path of [_exit_trade], with its result written out. *)
Lemma sl_tp_exit_stop_loss row i (s : BackTester) trade :
  trades s !! i = Some trade → exited trade = false →
  ¬ stake_amount s == 0 →
  amount trade * close row < stake_amount s →
  stop_loss s <= (stake_amount s - amount trade * close row) / stake_amount s →
  _exit_trade (Some row) i true false s =
  Ok (settle i trade (amount trade * close row)
        (set_losses (losses s ++ [stake_amount s - amount trade * close row])
           (set_sl_hits (sl_hits s + 1) s))).
Proof.
  intros Hi He Hz Hlt%Qlt_bool_iff Hsl%Qle_bool_iff.
  unfold _exit_trade. rewrite Hi, He. simpl.
  rewrite Hlt, (py_div_ok _ _ Hz). simpl. by rewrite Hsl.
Qed.

(** C9. With [stake_amount = 100], [stop_loss = 0.10], [take_profit = 0.20],
    a starting balance [B >= 100] and the two bars (close 10, [enter_long]),
    (close 9, no signal): the first bar opens one position of quantity 10 and
    leaves [B - 100]; the second bar closes it as a stop-loss hit; [backtest]
    returns normally and the metrics are wins 0, losses 1, loss_amount 10,
    sl_hits 1, tp_hits 0, force_exits 0, total_trades 1 and final_balance
    [B - 100 + 90]. *)
Theorem C9_stop_loss_scenario (B : Q) :
  100 <= B →
  let strategy := {| Strategy.stake_amount := 100;
                     Strategy.stop_loss := 1 # 10;
                     Strategy.take_profit := 2 # 10 |} in
  let t1 := {| close := 10; signal := Some "enter_long"%string |} in
  let t2 := {| close := 9; signal := None |} in
  ∃ s1 s2 quantity loss_amount final_balance,
    backtest_row t1 (__init__ strategy B) = Ok s1 ∧
    trades s1 = [{| price := 10; amount := quantity; exited := false |}] ∧
    quantity == 10 ∧ balance s1 == B - 100 ∧
    backtest_row t2 s1 = Ok s2 ∧
    trades s2 = [{| price := 10; amount := quantity; exited := true |}] ∧
    backtest [t1; t2] (__init__ strategy B) =
    Ok (s2,
        {| m_wins := [0%nat];
           m_losses := [1%nat];
           m_win_amount := [0];
           m_loss_amount := [loss_amount];
           m_sl_hits := [1%nat];
           m_tp_hits := [0%nat];
           m_force_exits := [0%nat];
           m_win_pct := [0 / 1 * 100];
           m_loss_pct := [1 / 1 * 100];
           m_wl_ratio := [0 / 1];
           m_total_trades := [1%nat];
           m_final_balance := [final_balance] |}) ∧
    loss_amount == 10 ∧ final_balance == B - 100 + 90.
Proof.
  intros HB strategy t1 t2.
  set (s0 := __init__ strategy B).
  assert (stake_amount s0 <= balance s0) as Hfund by done.
  pose proof (_enter_long_funded t1 s0 Hfund) as Henter.
  specialize (Henter ltac:(discriminate)).
  match type of Henter with _ = Ok ?x => set (e1 := x) in * end.
  assert (on_signal t1 s0 = Ok e1) as Hon1 by done.
  assert (_exit_trades (Some t1) true false e1 = Ok e1) as Hsweep1.
  { unfold _exit_trades. change (trades_to_exit e1) with [0%nat].
    rewrite for_each_cons.
    rewrite (unforced_exit_even t1 0 true e1
               {| price := 10; amount := 100 / 10; exited := false |});
      done. }
  assert (backtest_row t1 s0 = Ok (set_last_row (Some t1) e1)) as Hrow1.
  { unfold backtest_row. by rewrite Hon1, bind_of_Ok, Hsweep1. }
  set (s1 := set_last_row (Some t1) e1) in *.
  assert (on_signal t2 s1 = Ok s1) as Hon2 by done.
  pose proof (sl_tp_exit_stop_loss t2 0 s1
                {| price := 10; amount := 100 / 10; exited := false |}
                eq_refl eq_refl) as Hexit.
  specialize (Hexit ltac:(discriminate) ltac:(reflexivity) ltac:(discriminate)).
  match type of Hexit with _ = Ok ?x => set (e2 := x) in * end.
  assert (_exit_trades (Some t2) true false s1 = Ok e2) as Hsweep2.
  { unfold _exit_trades. change (trades_to_exit s1) with [0%nat].
    rewrite for_each_cons, Hexit. done. }
  assert (backtest_row t2 s1 = Ok (set_last_row (Some t2) e2)) as Hrow2.
  { unfold backtest_row. by rewrite Hon2, bind_of_Ok, Hsweep2. }
  set (s2 := set_last_row (Some t2) e2) in *.
  exists s1, s2, (100 / 10), (0 + (100 - 100 / 10 * 9)), (B - 100 + 100 / 10 * 9).
  split; [done|]. split; [done|]. split; [done|]. split; [done|].
  split; [done|]. split; [done|]. split; [|split; [done|]].
  - unfold backtest, backtest_ledger, backtest_loop.
    rewrite for_each_cons, Hrow1, bind_of_Ok, for_each_cons, Hrow2, bind_of_Ok.
    reflexivity.
  - assert (100 / 10 * 9 == 90) as -> by done. done.
Qed.

Lemma C9_stop_loss_scenario_witness :
  ∃ s metrics,
    backtest [{| close := 10; signal := Some "enter_long"%string |};
              {| close := 9; signal := None |}]
      (__init__ {| Strategy.stake_amount := 100;
                   Strategy.stop_loss := 1 # 10;
                   Strategy.take_profit := 2 # 10 |} 1000) = Ok (s, metrics) ∧
    m_losses metrics = [1%nat] ∧ m_sl_hits metrics = [1%nat].
Proof.
  destruct (C9_stop_loss_scenario 1000)
    as (s1 & s2 & quantity & loss_amount & final_balance & H).
  - discriminate.
  - destruct H as (_ & _ & _ & _ & _ & _ & Hrun & _).
    eexists. eexists. split; [exact Hrun|]. split; reflexivity.
Defined.

(** * Further properties of the engine *)

(** ** Properties kept along a run over rows that satisfy a condition *)

Lemma _exit_trade_no_row_inv i a b (s s' : BackTester) :
  _exit_trade None i a b s = Ok s' → s' = s.
Proof.
  intros H. apply _exit_trade_inv in H as [->|(t & row & s0 & [=] & _)]. done.
Qed.

Lemma backtest_loop_last_row_or (data_frame : list Bar) (s s' : BackTester) :
  backtest_loop data_frame s = Ok s' →
  last_row s' = match last data_frame with
                | Some row => Some row
                | None => last_row s
                end.
Proof.
  intros H. destruct (last data_frame) as [row|] eqn:E.
  - by eapply backtest_loop_last_row.
  - apply last_None in E as ->. by injection H as <-.
Qed.

Section kept_on.
Variable P : Bar → Prop.
Variable I : BackTester → Prop.
Hypothesis I_exit : ∀ row i a b s s',
  P row → I s → _exit_trade (Some row) i a b s = Ok s' → I s'.
Hypothesis I_enter : ∀ row s s',
  P row → I s → last_action s ≠ Some "enter_long"%string →
  _enter_long row s = Ok s' → I s'.
Hypothesis I_last_row : ∀ v s, I s → I (set_last_row v s).

Lemma _exit_trade_keeps_on r i a b s s' :
  from_option P True r → I s → _exit_trade r i a b s = Ok s' → I s'.
Proof.
  destruct r as [row|]; simpl.
  - intros Hrow Hs H. by eapply I_exit.
  - intros _ Hs H. by apply _exit_trade_no_row_inv in H as ->.
Qed.

Lemma _exit_trades_keeps_on r a b s s' :
  from_option P True r → I s → _exit_trades r a b s = Ok s' → I s'.
Proof.
  unfold _exit_trades. intros Hr Hs.
  apply (for_each_invariant I); [|done].
  intros i s1 s2. by apply _exit_trade_keeps_on.
Qed.

Lemma _exit_trades_points_keep_on r a b s :
  from_option P True r → I s → Forall I (_exit_trades_points r a b s).
Proof.
  unfold _exit_trades_points. intros Hr. apply for_each_points_Forall.
  - intros i s1 Hs1. destruct (_exit_trade r i a b s1) as [s2|e] eqn:E;
      simpl; [|constructor].
    repeat constructor. by eapply _exit_trade_keeps_on.
  - intros i s1 s2. by apply _exit_trade_keeps_on.
Qed.

Lemma on_signal_keeps_on row s s' :
  P row → I s → on_signal row s = Ok s' → I s'.
Proof.
  unfold on_signal. intros Hrow Hs. repeat case_bool_decide.
  - by apply I_enter.
  - by intros [= <-].
  - by apply _exit_trades_keeps_on.
  - by intros [= <-].
Qed.

Lemma on_signal_points_keep_on row s :
  P row → I s → Forall I (on_signal_points row s).
Proof.
  unfold on_signal_points. intros Hrow Hs. repeat case_bool_decide.
  - destruct (_enter_long row s) as [s'|e] eqn:E; simpl; [|constructor].
    repeat constructor. by eapply I_enter.
  - constructor.
  - by apply _exit_trades_points_keep_on.
  - constructor.
Qed.

Lemma backtest_row_keeps_on row s s' :
  P row → I s → backtest_row row s = Ok s' → I s'.
Proof.
  intros Hrow Hs (s1 & s2 & H1 & H2 & ->)%backtest_row_inv.
  apply I_last_row. eapply (_exit_trades_keeps_on (Some row)); [done| |done].
  by eapply on_signal_keeps_on.
Qed.

Lemma backtest_row_points_keep_on row s :
  P row → I s → Forall I (backtest_row_points row s).
Proof.
  unfold backtest_row_points. intros Hrow Hs.
  apply Forall_app. split; [by apply on_signal_points_keep_on|].
  destruct (on_signal row s) as [s1|e] eqn:E1; [|constructor].
  apply Forall_app. split.
  - apply _exit_trades_points_keep_on; [done|]. by eapply on_signal_keeps_on.
  - destruct (backtest_row row s) as [s'|e] eqn:E; simpl; [|constructor].
    repeat constructor. by eapply backtest_row_keeps_on.
Qed.

Lemma backtest_loop_keeps_on data_frame s s' :
  Forall P data_frame → I s → backtest_loop data_frame s = Ok s' → I s'.
Proof.
  unfold backtest_loop. intros Hdf. revert s.
  induction Hdf as [|row df Hrow Hdf IH]; intros s Hs.
  - by intros [= <-].
  - rewrite for_each_cons. intros (s1 & H1 & H2)%bind_Ok.
    apply (IH s1); [|done]. by eapply backtest_row_keeps_on.
Qed.

Lemma backtest_loop_points_keep_on data_frame s :
  Forall P data_frame → I s →
  Forall I (for_each_points backtest_row backtest_row_points data_frame s).
Proof.
  intros Hdf. revert s. induction Hdf as [|row df Hrow Hdf IH]; intros s Hs.
  - constructor.
  - simpl. apply Forall_app. split; [by apply backtest_row_points_keep_on|].
    destruct (backtest_row row s) as [s1|e] eqn:E; [|constructor].
    apply IH. by eapply backtest_row_keeps_on.
Qed.

(** [I] holds at every point of [backtest] over rows that satisfy [P]. *)
Lemma backtest_points_keep_on data_frame s :
  Forall P data_frame → from_option P True (last_row s) → I s →
  Forall I (backtest_points data_frame s).
Proof.
  unfold backtest_points. intros Hdf Hlast Hs. constructor; [done|].
  apply Forall_app. split; [by apply backtest_loop_points_keep_on|].
  destruct (backtest_loop data_frame s) as [s1|e] eqn:E; [|constructor].
  apply _exit_trades_points_keep_on; [|by eapply backtest_loop_keeps_on].
  rewrite (backtest_loop_last_row_or _ _ _ E).
  destruct (last data_frame) as [row|] eqn:El; [|done]. simpl.
  rewrite Forall_forall in Hdf. apply Hdf. by eapply last_Some_elem_of.
Qed.
End kept_on.

(** What [backtest] returns: the liquidated ledger and its metrics. *)
Lemma backtest_inv data_frame (s0 s : BackTester) metrics :
  backtest data_frame s0 = Ok (s, metrics) →
  backtest_ledger data_frame s0 = Ok s ∧ _calculate_metrics s = Ok metrics ∧
  s ∈ backtest_points data_frame s0.
Proof.
  unfold backtest. intros (s1 & H1 & H)%bind_Ok.
  apply bind_Ok in H as (m & Hm & [= <- <-]).
  split; [done|]. split; [done|].
  by apply backtest_points_last, last_Some_elem_of in H1.
Qed.

Lemma _calculate_metrics_inv (s : BackTester) metrics :
  _calculate_metrics s = Ok metrics →
  total_trades s ≠ 0%nat ∧ losses s ≠ [] ∧
  metrics =
  {| m_wins := [length (wins s)];
     m_losses := [length (losses s)];
     m_win_amount := [py_sum (wins s)];
     m_loss_amount := [py_sum (losses s)];
     m_sl_hits := [sl_hits s];
     m_tp_hits := [tp_hits s];
     m_force_exits := [force_exits s];
     m_win_pct :=
       [Q_of_nat (length (wins s)) / Q_of_nat (total_trades s) * 100];
     m_loss_pct :=
       [Q_of_nat (length (losses s)) / Q_of_nat (total_trades s) * 100];
     m_wl_ratio :=
       [Q_of_nat (length (wins s)) / Q_of_nat (length (losses s))];
     m_total_trades := [total_trades s];
     m_final_balance := [balance s] |}.
Proof.
  unfold _calculate_metrics.
  intros (w & [Ht ->]%py_div_inv & H)%bind_Ok.
  apply bind_Ok in H as (l & [_ ->]%py_div_inv & H).
  apply bind_Ok in H as (r & [Hl ->]%py_div_inv & [= <-]).
  rewrite Q_of_nat_zero in Ht, Hl.
  split; [done|]. split; [|done]. by intros Hnil; rewrite Hnil in Hl.
Qed.

Lemma length_open_closed (l : list Trade) :
  (length (open_trades l) + length (closed_trades l))%nat = length l.
Proof.
  unfold open_trades, closed_trades. induction l as [|t l IH]; [done|].
  rewrite !filter_cons. destruct (exited t) eqn:E;
    repeat case_decide; try congruence; simpl; lia.
Qed.

(** The liquidation call of line 182 returns only with every position
    exited, with or without a last row. *)
Lemma liquidation_all_exited r (s1 s : BackTester) :
  _exit_trades r false true s1 = Ok s →
  Forall (λ trade, exited trade = true) (trades s).
Proof.
  destruct r as [row|].
  - destruct (forced_sweep row s1) as (s' & Hrun & Htr & _).
    rewrite Hrun. intros [= <-]. rewrite Htr. apply Forall_exited_mark.
  - unfold _exit_trades. destruct (trades_to_exit s1) as [|i idxs] eqn:E.
    + intros [= <-]. by apply trades_to_exit_nil.
    + assert (i ∈ trades_to_exit s1) as (t & Hi & He)%elem_of_trades_to_exit
        by (rewrite E; apply elem_of_cons; by left).
      by rewrite for_each_cons, (_exit_trade_no_row _ _ _ _ _ Hi He).
Qed.

Lemma backtest_ledger_all_exited data_frame (s0 s : BackTester) :
  backtest_ledger data_frame s0 = Ok s →
  Forall (λ trade, exited trade = true) (trades s) ∧ open_positions s = 0%nat.
Proof.
  unfold backtest_ledger. intros (s1 & _ & H)%bind_Ok.
  apply liquidation_all_exited in H. split; [done|].
  unfold open_positions. by apply open_trades_nil in H as ->.
Qed.

(** ** X1: the three exit counters *)

Lemma booked_counters pv a b (s s0 : BackTester) :
  booked pv a b s s0 →
  (sl_hits s0 + tp_hits s0 + force_exits s0)%nat =
  S (sl_hits s + tp_hits s + force_exits s).
Proof. destruct 1; simpl; lia. Qed.

Lemma counted_exit r i a b (s s' : BackTester) :
  counted s → _exit_trade r i a b s = Ok s' → counted s'.
Proof.
  unfold counted. intros [Hc Ht] H.
  apply _exit_trade_inv in H as [->|(t & row & s0 & _ & Hi & He & Hb & ->)]; [done|].
  pose proof (booked_frame _ _ _ _ _ Hb) as (Htr & _ & _ & _ & Htot & _).
  pose proof (booked_counters _ _ _ _ _ Hb) as Hcnt.
  destruct (settle_positions i t (amount t * close row) s s0 Hi He Htr) as [_ ->].
  rewrite settle_trades, length_insert, Htr. simpl. split; [lia|congruence].
Qed.

Lemma counted_enter row (s s' : BackTester) :
  counted s → _enter_long row s = Ok s' → counted s'.
Proof.
  unfold counted, closed_positions. intros [Hc Ht] H.
  apply _enter_long_inv in H as [->|(_ & _ & ->)]; [done|].
  simpl. rewrite closed_trades_app, !length_app. simpl. lia.
Qed.

(** X1. In a run from a fresh [BackTester], at every point, [sl_hits +
    tp_hits + force_exits] is the number of exited positions and
    [total_trades] is the number of positions in the ledger, open and exited
    together.  When [backtest] returns, the three counters of the metrics add
    up to [total_trades]. *)
Theorem X1_exit_counters (strategy : Strategy.t) (starting_balance : Q)
    (data_frame : list Bar) :
  let s0 := __init__ strategy starting_balance in
  Forall (λ s, (sl_hits s + tp_hits s + force_exits s)%nat = closed_positions s ∧
               total_trades s = length (trades s) ∧
               total_trades s = (open_positions s + closed_positions s)%nat)
    (backtest_points data_frame s0) ∧
  (∀ s metrics, backtest data_frame s0 = Ok (s, metrics) →
     ∃ sl tp fe, m_sl_hits metrics = [sl] ∧ m_tp_hits metrics = [tp] ∧
                 m_force_exits metrics = [fe] ∧
                 m_total_trades metrics = [(sl + tp + fe)%nat]).
Proof.
  intros s0.
  assert (Forall counted (backtest_points data_frame s0)) as Hpts.
  { apply (backtest_points_keep counted counted_exit).
    - intros row s s' Hs _. by apply counted_enter.
    - by intros v s.
    - done. }
  split.
  - eapply Forall_impl; [exact Hpts|].
    intros s [Hc Ht]. split; [done|]. split; [done|].
    rewrite Ht. unfold open_positions, closed_positions.
    by rewrite length_open_closed.
  - intros s metrics (Hled & Hm & Hin)%backtest_inv.
    rewrite Forall_forall in Hpts. destruct (Hpts s Hin) as [Hc Ht].
    apply _calculate_metrics_inv in Hm as (_ & _ & ->). simpl.
    exists (sl_hits s), (tp_hits s), (force_exits s).
    repeat split. f_equal.
    apply backtest_ledger_all_exited in Hled as [_ Hopen].
    pose proof (length_open_closed (trades s)) as Hlen.
    unfold open_positions in Hopen. unfold closed_positions in Hc. lia.
Qed.

Lemma X1_exit_counters_witness :
  ∃ s metrics,
    backtest [{| close := 10; signal := Some "enter_long"%string |};
              {| close := 9; signal := None |}]
      (__init__ KNNEMARibbonStrategy 1000) = Ok (s, metrics) ∧
    ∃ sl tp fe, m_sl_hits metrics = [sl] ∧ m_tp_hits metrics = [tp] ∧
                m_force_exits metrics = [fe] ∧
                m_total_trades metrics = [(sl + tp + fe)%nat].
Proof.
  eexists. eexists. split; [vm_compute; reflexivity|].
  eapply (X1_exit_counters KNNEMARibbonStrategy 1000
            [{| close := 10; signal := Some "enter_long"%string |};
             {| close := 9; signal := None |}]).
  vm_compute. reflexivity.
Defined.

(** ** X2: what is recorded as a win or a loss *)

Lemma positive_records_exit r i a b (s s' : BackTester) :
  positive_records s → _exit_trade r i a b s = Ok s' → positive_records s'.
Proof.
  unfold positive_records. intros [Hw Hl] H.
  apply _exit_trade_inv in H as [->|(t & row & s0 & _ & Hi & He & Hb & ->)]; [done|].
  simpl. destruct Hb; simpl; rewrite ?Forall_app, ?Forall_singleton;
    repeat split; try done; lra.
Qed.

Lemma positive_records_enter row (s s' : BackTester) :
  positive_records s → _enter_long row s = Ok s' → positive_records s'.
Proof.
  intros Hs H. by apply _enter_long_inv in H as [->|(_ & _ & ->)].
Qed.

(** X2. In a run from a fresh [BackTester], at every point, every amount in
    [wins] and every amount in [losses] is strictly positive: a loss is
    recorded as the positive difference [stake_amount - position_value], and a
    position closed at exactly the stake is recorded in neither list. *)
Theorem X2_recorded_amounts_positive (strategy : Strategy.t)
    (starting_balance : Q) (data_frame : list Bar) :
  Forall (λ s, Forall (λ x, 0 < x) (wins s) ∧ Forall (λ x, 0 < x) (losses s))
    (backtest_points data_frame (__init__ strategy starting_balance)).
Proof.
  apply (backtest_points_keep positive_records positive_records_exit).
  - intros row s s' Hs _. by apply positive_records_enter.
  - by intros v s.
  - by split.
Qed.

(** ** X3: the balance and the recorded amounts *)

Lemma py_sum_snoc (xs : list Q) (x : Q) : py_sum (xs ++ [x]) = py_sum xs + x.
Proof. unfold py_sum. by rewrite fold_left_app. Qed.

Lemma Q_of_nat_S (n : nat) : Q_of_nat (S n) == Q_of_nat n + 1.
Proof. unfold Q_of_nat. rewrite Nat2Z.inj_succ, <-Z.add_1_r, inject_Z_plus. done. Qed.

Lemma funded_exit B0 r i a b (s s' : BackTester) :
  funded B0 s → _exit_trade r i a b s = Ok s' → funded B0 s'.
Proof.
  unfold funded. intros Hs H.
  apply _exit_trade_inv in H as [->|(t & row & s0 & _ & Hi & He & Hb & ->)]; [done|].
  pose proof (booked_frame _ _ _ _ _ Hb) as (Htr & Hbal & _ & _ & _ & Hst & _).
  destruct (settle_positions i t (amount t * close row) s s0 Hi He Htr) as [Ho _].
  rewrite Ho, Q_of_nat_S in Hs.
  set (n := Q_of_nat (open_positions (settle i t (amount t * close row) s0))) in *.
  change (balance s0 + amount t * close row + n * stake_amount s0 ==
          B0 + py_sum (wins s0) - py_sum (losses s0)).
  rewrite Hbal, Hst.
  destruct (booked_accounting _ _ _ _ _ Hb)
    as [(_ & -> & -> & _)|[(_ & -> & -> & _)|(Heq & _ & -> & -> & _)]];
    rewrite ?py_sum_snoc; lra.
Qed.

Lemma funded_enter B0 row (s s' : BackTester) :
  funded B0 s → _enter_long row s = Ok s' → funded B0 s'.
Proof.
  unfold funded, open_positions. intros Hs H.
  apply _enter_long_inv in H as [->|(_ & _ & ->)]; [done|].
  simpl. rewrite open_trades_app, length_app. simpl.
  rewrite Nat.add_1_r, Q_of_nat_S. lra.
Qed.

(** X3. In a run from a fresh [BackTester] with starting balance [B0], at
    every point, the balance plus one stake per open position equals [B0] plus
    the sum of [wins] minus the sum of [losses].  When [backtest] returns, the
    metrics satisfy [final_balance = B0 + win_amount - loss_amount]. *)
Theorem X3_balance_reconciles (strategy : Strategy.t) (B0 : Q)
    (data_frame : list Bar) :
  let s0 := __init__ strategy B0 in
  Forall (λ s, balance s + Q_of_nat (open_positions s) * stake_amount s ==
               B0 + py_sum (wins s) - py_sum (losses s))
    (backtest_points data_frame s0) ∧
  (∀ s metrics, backtest data_frame s0 = Ok (s, metrics) →
     ∃ final_balance win_amount loss_amount,
       m_final_balance metrics = [final_balance] ∧
       m_win_amount metrics = [win_amount] ∧
       m_loss_amount metrics = [loss_amount] ∧
       final_balance == B0 + win_amount - loss_amount).
Proof.
  intros s0.
  assert (Forall (funded B0) (backtest_points data_frame s0)) as Hpts.
  { apply (backtest_points_keep (funded B0) (funded_exit B0)).
    - intros row s s' Hs _. by apply (funded_enter B0 row s).
    - by intros v s.
    - change (B0 + 0 * Strategy.stake_amount strategy == B0 + 0 - 0). lra. }
  split; [done|].
  intros s metrics (Hled & Hm & Hin)%backtest_inv.
  rewrite Forall_forall in Hpts. pose proof (Hpts s Hin) as Hf.
  apply _calculate_metrics_inv in Hm as (_ & _ & ->). simpl.
  exists (balance s), (py_sum (wins s)), (py_sum (losses s)).
  repeat split.
  apply backtest_ledger_all_exited in Hled as [_ Hopen].
  unfold funded in Hf. rewrite Hopen in Hf.
  change (Q_of_nat 0) with 0 in Hf. lra.
Qed.

Lemma X3_balance_reconciles_witness :
  ∃ s metrics,
    backtest [{| close := 10; signal := Some "enter_long"%string |};
              {| close := 9; signal := None |}]
      (__init__ KNNEMARibbonStrategy 1000) = Ok (s, metrics) ∧
    ∃ final_balance win_amount loss_amount,
      m_final_balance metrics = [final_balance] ∧
      m_win_amount metrics = [win_amount] ∧
      m_loss_amount metrics = [loss_amount] ∧
      final_balance == 1000 + win_amount - loss_amount.
Proof.
  eexists. eexists. split; [vm_compute; reflexivity|].
  eapply (X3_balance_reconciles KNNEMARibbonStrategy 1000
            [{| close := 10; signal := Some "enter_long"%string |};
             {| close := 9; signal := None |}]).
  vm_compute. reflexivity.
Defined.

(** ** X4: the balance is never negative *)

Lemma solvent_exit row i a b (s s' : BackTester) :
  0 < close row → solvent s → _exit_trade (Some row) i a b s = Ok s' →
  solvent s'.
Proof.
  unfold solvent. intros Hc (Hst & Hbal & Ham) H.
  apply _exit_trade_inv in H as [->|(t & row' & s0 & [= <-] & Hi & He & Hb & ->)];
    [done|].
  pose proof (booked_frame _ _ _ _ _ Hb) as (Htr & Hbal0 & _ & _ & _ & Hst0 & _).
  assert (0 <= amount t) as Ht
    by (rewrite Forall_lookup in Ham; by apply (Ham i t)).
  rewrite settle_trades, Htr.
  change (0 <= stake_amount s0 ∧ 0 <= balance s0 + amount t * close row ∧
          Forall (λ trade, 0 <= amount trade) (<[i := mark_exited t]> (trades s))).
  rewrite Hst0, Hbal0. split; [done|]. split.
  - pose proof (Qmult_le_0_compat (amount t) (close row) Ht) as Hpv.
    specialize (Hpv ltac:(lra)). lra.
  - by apply Forall_insert.
Qed.

Lemma solvent_enter row (s s' : BackTester) :
  0 < close row → solvent s → _enter_long row s = Ok s' → solvent s'.
Proof.
  unfold solvent. intros Hc (Hst & Hbal & Ham) H.
  apply _enter_long_inv in H as [->|(Hfund & _ & ->)]; [done|].
  simpl. split; [done|]. split; [lra|].
  apply Forall_app. split; [done|]. apply Forall_singleton. simpl.
  apply Qle_shift_div_l; [done|]. lra.
Qed.

(** X4. With a stake and a starting balance that are not negative and close
    prices that are all positive, the balance is not negative at any point of a
    run from a fresh [BackTester], and no position holds a negative quantity:
    an entry is paid out of a balance that covers the stake, and an exit only
    adds proceeds. *)
Theorem X4_balance_never_negative (strategy : Strategy.t) (B0 : Q)
    (data_frame : list Bar) :
  0 <= Strategy.stake_amount strategy → 0 <= B0 →
  Forall (λ row, 0 < close row) data_frame →
  Forall (λ s, 0 <= balance s ∧ Forall (λ trade, 0 <= amount trade) (trades s))
    (backtest_points data_frame (__init__ strategy B0)).
Proof.
  intros Hst HB Hdf.
  eapply Forall_impl.
  - apply (backtest_points_keep_on (λ row, 0 < close row) solvent).
    + intros row i a b s s'. apply solvent_exit.
    + intros row s s' Hrow Hs _. by apply solvent_enter.
    + by intros v s.
    + done.
    + done.
    + by repeat split.
  - by intros s (_ & ? & ?).
Qed.

Lemma X4_balance_never_negative_witness :
  Forall (λ s, 0 <= balance s)
    (backtest_points
       [{| close := 10; signal := Some "enter_long"%string |};
        {| close := 4; signal := Some "exit_long"%string |}]
       (__init__ KNNStrategy 150)).
Proof.
  eapply Forall_impl.
  - apply (X4_balance_never_negative KNNStrategy 150
             [{| close := 10; signal := Some "enter_long"%string |};
              {| close := 4; signal := Some "exit_long"%string |}]).
    + discriminate.
    + discriminate.
    + repeat constructor.
  - intros s [H _]. exact H.
Defined.

(** ** X5: runs without an entry *)

Lemma set_last_row_twice v w (s : BackTester) :
  set_last_row v (set_last_row w s) = set_last_row v s.
Proof. done. Qed.

Lemma _exit_trades_no_trades r a b (s : BackTester) :
  trades s = [] → _exit_trades r a b s = Ok s.
Proof. intros H. unfold _exit_trades, trades_to_exit. by rewrite H. Qed.

Lemma backtest_loop_without_entry (data_frame : list Bar) (s : BackTester) :
  trades s = [] →
  (∀ row, row ∈ data_frame → signal row = Some "enter_long"%string →
     last_action s = Some "enter_long"%string ∨ balance s < stake_amount s) →
  backtest_loop data_frame s =
  Ok (set_last_row (match last data_frame with
                    | Some row => Some row
                    | None => last_row s
                    end) s).
Proof.
  unfold backtest_loop. revert s.
  induction data_frame as [|row df IH]; intros s Htr Hno.
  - by destruct s.
  - assert (on_signal row s = Ok s) as Hon.
    { unfold on_signal. repeat case_bool_decide; try done.
      - destruct (Hno row) as [?|Hlt%Qle_bool_gt]; [by left|done|done|].
        unfold _enter_long. by rewrite Hlt.
      - by apply _exit_trades_no_trades. }
    assert (backtest_row row s = Ok (set_last_row (Some row) s)) as Hrow.
    { unfold backtest_row.
      by rewrite Hon, bind_of_Ok, (_exit_trades_no_trades _ _ _ _ Htr). }
    rewrite for_each_cons, Hrow, bind_of_Ok.
    rewrite (IH (set_last_row (Some row) s)); [|done|].
    + rewrite set_last_row_twice. do 2 f_equal.
      destruct df as [|row' df]; [done|].
      rewrite last_cons_cons.
      destruct (last (row' :: df)) eqn:E; [done|]. by apply last_None in E.
    + intros row' Hin. apply Hno. by right.
Qed.

(** X5. If every row that carries an [enter_long] signal meets a starting
    balance below the stake (in particular, if no row carries that signal), a
    run from a fresh [BackTester] makes no trade: the ledger that reaches
    [_print_backtest_results] is the fresh one with [last_row] set to the last
    row of the frame, and [backtest] raises [ZeroDivisionError] instead of
    reporting, whatever the frame, the empty one included. *)
Theorem X5_no_entry_no_report (strategy : Strategy.t) (B0 : Q)
    (data_frame : list Bar) :
  (∀ row, row ∈ data_frame → signal row = Some "enter_long"%string →
     B0 < Strategy.stake_amount strategy) →
  backtest_ledger data_frame (__init__ strategy B0) =
    Ok (set_last_row (last data_frame) (__init__ strategy B0)) ∧
  backtest data_frame (__init__ strategy B0) = Raise ZeroDivisionError.
Proof.
  intros Hno. set (s0 := __init__ strategy B0).
  assert (backtest_loop data_frame s0 = Ok (set_last_row (last data_frame) s0))
    as Hloop.
  { rewrite backtest_loop_without_entry; [|done|].
    - by destruct (last data_frame).
    - intros row Hin Hsig. right. by apply (Hno row). }
  assert (backtest_ledger data_frame s0 = Ok (set_last_row (last data_frame) s0))
    as Hled.
  { unfold backtest_ledger. rewrite Hloop, bind_of_Ok.
    by apply _exit_trades_no_trades. }
  split; [done|].
  unfold backtest. rewrite Hled, bind_of_Ok.
  rewrite _calculate_metrics_raises; [done|]. by left.
Qed.

Lemma X5_no_entry_no_report_witness :
  backtest [{| close := 10; signal := Some "enter_long"%string |};
            {| close := 12; signal := Some "exit_long"%string |}]
    (__init__ KNNStrategy 99) = Raise ZeroDivisionError.
Proof.
  apply (X5_no_entry_no_report KNNStrategy 99
           [{| close := 10; signal := Some "enter_long"%string |};
            {| close := 12; signal := Some "exit_long"%string |}]).
  intros row Hin Hsig. reflexivity.
Defined.

(** A frame without an [enter_long] signal, on a fresh engine. *)
Lemma backtest_without_signal (strategy : Strategy.t) (B0 : Q)
    (data_frame : list Bar) :
  (∀ row, row ∈ data_frame → signal row ≠ Some "enter_long"%string) →
  backtest data_frame (__init__ strategy B0) = Raise ZeroDivisionError.
Proof.
  intros Hno. set (s0 := __init__ strategy B0).
  unfold backtest, backtest_ledger.
  rewrite (backtest_loop_without_entry data_frame s0); [|done|].
  - rewrite bind_of_Ok, _exit_trades_no_trades by done.
    rewrite bind_of_Ok, _calculate_metrics_raises; [done|]. by left.
  - intros row Hin Hsig. by destruct (Hno row Hin).
Qed.

(** ** X6 and X7: when metrics are reported, and what they say *)

Lemma _calculate_metrics_returns (s : BackTester) :
  total_trades s ≠ 0%nat → losses s ≠ [] →
  ∃ metrics, _calculate_metrics s = Ok metrics.
Proof.
  intros Ht Hl. unfold _calculate_metrics.
  rewrite !(py_div_ok _ (Q_of_nat (total_trades s))) by (by rewrite Q_of_nat_zero).
  rewrite !bind_of_Ok, py_div_ok; [by eexists|].
  rewrite Q_of_nat_zero. by intros ?%nil_length_inv.
Qed.

(** In a run from a fresh engine the wins and the losses are among the
    recorded trades. *)
Lemma wins_losses_le_total (strategy : Strategy.t) (B0 : Q)
    (data_frame : list Bar) (s : BackTester) :
  s ∈ backtest_points data_frame (__init__ strategy B0) →
  (length (wins s) + length (losses s) ≤ total_trades s)%nat.
Proof.
  intros Hin.
  assert (Forall (λ s, reconciled s ∧ counted s)
            (backtest_points data_frame (__init__ strategy B0))) as Hpts.
  { apply (backtest_points_keep (λ s, reconciled s ∧ counted s)).
    - intros r i a b s1 s2 [Hr Hc] H. split.
      + by eapply reconciled_exit.
      + by eapply counted_exit.
    - intros row s1 s2 [Hr Hc] _ H. split.
      + by eapply reconciled_enter.
      + by eapply counted_enter.
    - by intros v s1.
    - done. }
  rewrite Forall_forall in Hpts. destruct (Hpts s Hin) as [Hr [_ Ht]].
  unfold reconciled, closed_positions in Hr.
  pose proof (length_open_closed (trades s)). lia.
Qed.

(** X6. For a run from a fresh [BackTester] whose loop and liquidation return,
    [backtest] reports metrics exactly when the final ledger records at least
    one loss; with no loss recorded (no trade at all, or only wins and
    break-even exits) it raises [ZeroDivisionError]. *)
Theorem X6_report_needs_a_loss (strategy : Strategy.t) (B0 : Q)
    (data_frame : list Bar) (s : BackTester) :
  backtest_ledger data_frame (__init__ strategy B0) = Ok s →
  (losses s ≠ [] →
   ∃ metrics, backtest data_frame (__init__ strategy B0) = Ok (s, metrics)) ∧
  (losses s = [] →
   backtest data_frame (__init__ strategy B0) = Raise ZeroDivisionError).
Proof.
  intros Hled. unfold backtest. rewrite Hled, bind_of_Ok. split.
  - intros Hl.
    destruct (_calculate_metrics_returns s) as (metrics & ->); [|done|].
    + apply backtest_points_last, last_Some_elem_of in Hled.
      apply wins_losses_le_total in Hled.
      destruct (losses s); [done|]. simpl in Hled. lia.
    + by exists metrics.
  - intros Hl. rewrite _calculate_metrics_raises; [done|]. by right.
Qed.

Lemma X6_report_needs_a_loss_witness :
  ∃ s, backtest_ledger
         [{| close := 10; signal := Some "enter_long"%string |};
          {| close := 12; signal := None |}]
         (__init__ KNNEMARibbonStrategy 1000) = Ok s ∧
       backtest
         [{| close := 10; signal := Some "enter_long"%string |};
          {| close := 12; signal := None |}]
         (__init__ KNNEMARibbonStrategy 1000) = Raise ZeroDivisionError.
Proof.
  eexists. split; [vm_compute; reflexivity|].
  eapply (X6_report_needs_a_loss KNNEMARibbonStrategy 1000
            [{| close := 10; signal := Some "enter_long"%string |};
             {| close := 12; signal := None |}]).
  - vm_compute. reflexivity.
  - reflexivity.
Defined.

Lemma Q_of_nat_le (n m : nat) : (n ≤ m)%nat → Q_of_nat n <= Q_of_nat m.
Proof.
  intros H. unfold Q_of_nat. rewrite <-Zle_Qle. by apply Nat2Z.inj_le.
Qed.

Lemma Q_of_nat_add (n m : nat) : Q_of_nat (n + m) == Q_of_nat n + Q_of_nat m.
Proof. unfold Q_of_nat. by rewrite Nat2Z.inj_add, inject_Z_plus. Qed.

Lemma Q_of_nat_nonneg (n : nat) : 0 <= Q_of_nat n.
Proof. apply (Q_of_nat_le 0 n). lia. Qed.



(** ** X8: the ledger only grows *)

Lemma ledger_grows_refl l : ledger_grows l l.
Proof. intros i trade Hi. by exists trade. Qed.

Lemma ledger_grows_trans l1 l2 l3 :
  ledger_grows l1 l2 → ledger_grows l2 l3 → ledger_grows l1 l3.
Proof.
  intros H12 H23 i t1 H1.
  destruct (H12 i t1 H1) as (t2 & H2 & Hp2 & Ha2 & He2).
  destruct (H23 i t2 H2) as (t3 & H3 & Hp3 & Ha3 & He3).
  exists t3. repeat split; [done|congruence|congruence|]. intros E. by apply He3, He2.
Qed.

Lemma ledger_grows_length l l' : ledger_grows l l' → (length l ≤ length l')%nat.
Proof.
  intros H. destruct l as [|t l _] using rev_ind; [simpl; lia|].
  destruct (H (length l) t) as (t' & Ht' & _).
  { by apply list_lookup_middle. }
  apply lookup_lt_Some in Ht'. rewrite length_app. simpl. lia.
Qed.

Lemma _exit_trade_grows r i a b (s s' : BackTester) :
  _exit_trade r i a b s = Ok s' → ledger_grows (trades s) (trades s').
Proof.
  intros H.
  apply _exit_trade_inv in H as [->|(t & row & s0 & _ & Hi & He & Hb & ->)];
    [apply ledger_grows_refl|].
  apply booked_frame in Hb as (Htr & _). rewrite settle_trades, Htr.
  intros j tj Hj. destruct (decide (j = i)) as [->|Hne].
  - rewrite Hi in Hj. injection Hj as <-. exists (mark_exited t).
    split; [|done]. apply list_lookup_insert_eq. by eapply lookup_lt_Some.
  - exists tj. split; [|done]. by rewrite list_lookup_insert_ne.
Qed.

Lemma _enter_long_grows row (s s' : BackTester) :
  _enter_long row s = Ok s' → ledger_grows (trades s) (trades s').
Proof.
  intros H. apply _enter_long_inv in H as [->|(_ & _ & ->)];
    [apply ledger_grows_refl|].
  intros j tj Hj. exists tj. split; [|done]. simpl. by apply lookup_app_l_Some.
Qed.

Lemma _exit_trades_grows r a b (s s' : BackTester) :
  _exit_trades r a b s = Ok s' → ledger_grows (trades s) (trades s').
Proof.
  unfold _exit_trades.
  apply (for_each_invariant (λ s1, ledger_grows (trades s) (trades s1)));
    [|apply ledger_grows_refl].
  intros i s1 s2 H1 H2. eapply ledger_grows_trans; [done|].
  by eapply _exit_trade_grows.
Qed.

Lemma backtest_row_grows row (s s' : BackTester) :
  backtest_row row s = Ok s' → ledger_grows (trades s) (trades s').
Proof.
  intros (s1 & s2 & H1 & H2 & ->)%backtest_row_inv. simpl.
  eapply ledger_grows_trans; [|by eapply _exit_trades_grows].
  unfold on_signal in H1. repeat case_bool_decide.
  - by eapply _enter_long_grows.
  - injection H1 as <-. apply ledger_grows_refl.
  - by eapply _exit_trades_grows.
  - injection H1 as <-. apply ledger_grows_refl.
Qed.

(** X8. Whatever state the engine starts from, processing bars and the final
    liquidation never remove a position from [trades], never change the
    [price] or the [amount] of a position, and never reset an [exited] flag:
    every position of the ledger before is found at the same place after, and
    the ledger is at least as long. *)
Theorem X8_ledger_only_grows (data_frame : list Bar) (s s' : BackTester) :
  backtest_loop data_frame s = Ok s' ∨ backtest_ledger data_frame s = Ok s' →
  (length (trades s) ≤ length (trades s'))%nat ∧
  ∀ i trade, trades s !! i = Some trade →
    ∃ trade', trades s' !! i = Some trade' ∧
              price trade' = price trade ∧ amount trade' = amount trade ∧
              (exited trade = true → exited trade' = true).
Proof.
  assert (∀ s1, backtest_loop data_frame s = Ok s1 →
            ledger_grows (trades s) (trades s1)) as Hloop.
  { intros s1. unfold backtest_loop.
    apply (for_each_invariant (λ s2, ledger_grows (trades s) (trades s2)));
      [|apply ledger_grows_refl].
    intros row s2 s3 H1 H2. eapply ledger_grows_trans; [done|].
    by eapply backtest_row_grows. }
  intros H.
  assert (ledger_grows (trades s) (trades s')) as Hg.
  { destruct H as [H|H]; [by apply Hloop|].
    unfold backtest_ledger in H. apply bind_Ok in H as (s1 & H1 & H2).
    eapply ledger_grows_trans; [by apply Hloop|]. by eapply _exit_trades_grows. }
  split; [by apply ledger_grows_length|done].
Qed.

Lemma X8_ledger_only_grows_witness :
  ∃ s', backtest_loop
          [{| close := 5; signal := Some "enter_long"%string |}]
          (set_trades [{| price := 10; amount := 10; exited := true |}]
             (__init__ KNNStrategy 500)) = Ok s' ∧
        (1 ≤ length (trades s'))%nat.
Proof.
  eexists. split; [vm_compute; reflexivity|].
  eapply (X8_ledger_only_grows
            [{| close := 5; signal := Some "enter_long"%string |}]
            (set_trades [{| price := 10; amount := 10; exited := true |}]
               (__init__ KNNStrategy 500))).
  left. vm_compute. reflexivity.
Defined.

(** ** X9: liquidation without a row *)

Lemma _exit_trades_no_row a b (s : BackTester) :
  open_positions s ≠ 0%nat → _exit_trades None a b s = Raise TypeError.
Proof.
  intros Hopen. unfold _exit_trades, open_positions in *.
  rewrite <-(length_open_from 0) in Hopen. fold (trades_to_exit s) in Hopen.
  destruct (trades_to_exit s) as [|i idxs] eqn:E; [done|].
  assert (i ∈ trades_to_exit s) as (t & Hi & He)%elem_of_trades_to_exit
    by (rewrite E; apply elem_of_cons; by left).
  by rewrite for_each_cons, (_exit_trade_no_row _ _ _ _ _ Hi He).
Qed.

(** X9. [_exit_trades(None, ...)], which is what the liquidation of line 182
    calls when no bar was processed, returns the state unchanged when no
    position is open and raises [TypeError] as soon as one is, whatever the
    flags.  So [backtest] on an empty frame, called on an engine that has an
    open position and no [last_row], raises [TypeError] before any metric is
    computed. *)
Theorem X9_liquidation_without_row (a b : bool) (s : BackTester) :
  (open_positions s = 0%nat → _exit_trades None a b s = Ok s) ∧
  (open_positions s ≠ 0%nat → _exit_trades None a b s = Raise TypeError) ∧
  (open_positions s ≠ 0%nat → last_row s = None →
   backtest [] s = Raise TypeError).
Proof.
  split; [|split; [apply _exit_trades_no_row|]].
  - intros Hopen. unfold _exit_trades, open_positions in *.
    rewrite <-(length_open_from 0) in Hopen. fold (trades_to_exit s) in Hopen.
    by apply nil_length_inv in Hopen as ->.
  - intros Hopen Hrow. unfold backtest, backtest_ledger, backtest_loop.
    simpl for_each. by rewrite bind_of_Ok, Hrow, (_exit_trades_no_row _ _ _ Hopen).
Qed.

Lemma X9_liquidation_without_row_witness :
  backtest []
    (set_trades [{| price := 10; amount := 10; exited := false |}]
       (__init__ KNNStrategy 900)) = Raise TypeError.
Proof.
  apply (X9_liquidation_without_row false true
           (set_trades [{| price := 10; amount := 10; exited := false |}]
              (__init__ KNNStrategy 900))).
  - discriminate.
  - reflexivity.
Defined.

(** ** X10 and X11: the two flags of an exit *)

Lemma for_each_noop {X S : Type} (body : X → S → result S) (xs : list X) (s : S) :
  (∀ x, body x s = Ok s) → for_each body xs s = Ok s.
Proof.
  intros H. induction xs as [|x xs IH]; [done|].
  by rewrite for_each_cons, H, bind_of_Ok.
Qed.

(** X10. With both flags at their default [False], [_exit_trade] exits
    nothing: on any row it returns the state as it is, whatever the position
    is worth, and so does [_exit_trades]. *)
Theorem X10_default_flags_exit_nothing (row : Bar) (i : nat) (s : BackTester) :
  _exit_trade (Some row) i false false s = Ok s ∧
  _exit_trades (Some row) false false s = Ok s.
Proof.
  assert (∀ j, _exit_trade (Some row) j false false s = Ok s) as Hcall.
  { intros j. unfold _exit_trade.
    destruct (trades s !! j) as [trade|]; [|done].
    destruct (exited trade); [done|]. simpl.
    repeat match goal with
           | |- context [if ?c then _ else _] => destruct c
           end; done. }
  split; [apply Hcall|]. unfold _exit_trades. by apply for_each_noop.
Qed.

(** X11. With [is_sl_tp=True], the flag [force_exit] forces nothing but a
    position worth exactly the stake: for an open position worth more or less
    than the stake, [_exit_trade(row, trade, True, True)] does what
    [_exit_trade(row, trade, True, False)] does (the thresholds decide, and a
    zero stake raises in both); for a position worth exactly the stake the
    former closes it as a forced exit and the latter leaves it open. *)
Theorem X11_sl_tp_overrides_force (row : Bar) (i : nat) (s : BackTester)
    (trade : Trade) :
  trades s !! i = Some trade → exited trade = false →
  let pv := amount trade * close row in
  (¬ pv == stake_amount s →
   _exit_trade (Some row) i true true s = _exit_trade (Some row) i true false s) ∧
  (pv == stake_amount s →
   _exit_trade (Some row) i true false s = Ok s ∧
   ∃ s', _exit_trade (Some row) i true true s = Ok s' ∧
         trades s' = <[i := mark_exited trade]> (trades s) ∧
         force_exits s' = (force_exits s + 1)%nat ∧
         sl_hits s' = sl_hits s ∧ tp_hits s' = tp_hits s ∧
         wins s' = wins s ∧ losses s' = losses s ∧
         balance s' = balance s + pv).
Proof.
  intros Hi He pv. unfold _exit_trade. rewrite Hi, He. simpl. fold pv. split.
  - intros Hne.
    destruct (Qlt_bool pv (stake_amount s)) eqn:Hlt; [done|].
    destruct (Qlt_bool (stake_amount s) pv) eqn:Hgt; [done|].
    apply Qlt_bool_ge in Hlt, Hgt. exfalso. apply Hne. lra.
  - intros Heq.
    assert (Qlt_bool pv (stake_amount s) = false) as ->
      by (apply Qlt_bool_ge; lra).
    assert (Qlt_bool (stake_amount s) pv = false) as ->
      by (apply Qlt_bool_ge; lra).
    split; [done|]. by eexists.
Qed.

Lemma X11_sl_tp_overrides_force_witness :
  _exit_trade (Some {| close := 9; signal := None |}) 0 true true
    (set_trades [{| price := 10; amount := 10; exited := false |}]
       (__init__ KNNEMARibbonStrategy 900)) =
  _exit_trade (Some {| close := 9; signal := None |}) 0 true false
    (set_trades [{| price := 10; amount := 10; exited := false |}]
       (__init__ KNNEMARibbonStrategy 900)).
Proof.
  apply (X11_sl_tp_overrides_force {| close := 9; signal := None |} 0
           (set_trades [{| price := 10; amount := 10; exited := false |}]
              (__init__ KNNEMARibbonStrategy 900))
           {| price := 10; amount := 10; exited := false |} eq_refl eq_refl).
  discriminate.
Defined.

(** ** X12: the ratios are relative price moves *)

Lemma priced_exit r i a b (s s' : BackTester) :
  priced s → _exit_trade r i a b s = Ok s' → priced s'.
Proof.
  unfold priced. intros Hs H.
  apply _exit_trade_inv in H as [->|(t & row & s0 & _ & Hi & He & Hb & ->)]; [done|].
  apply booked_frame in Hb as (Htr & _ & _ & _ & _ & Hst & _).
  rewrite settle_trades, Htr.
  change (stake_amount (settle i t (amount t * close row) s0))
    with (stake_amount s0).
  rewrite Hst. apply Forall_insert; [done|].
  rewrite Forall_lookup in Hs. by apply (Hs i t).
Qed.

Lemma priced_enter row (s s' : BackTester) :
  priced s → _enter_long row s = Ok s' → priced s'.
Proof.
  unfold priced. intros Hs H.
  apply _enter_long_inv in H as [->|(_ & Hz & ->)]; [done|].
  simpl. apply Forall_app. split; [done|]. by apply Forall_singleton.
Qed.



(** * Properties of the strategies *)

(** ** Columns *)

Lemma cell_lt_asym (x y : cell) : cell_lt x y = true → cell_lt y x = false.
Proof.
  destruct x as [a| | |], y as [b| | |]; simpl; try done.
  intros H%Qlt_bool_iff. apply Qlt_bool_ge. lra.
Qed.

Lemma lookup_rolling agg w (xs : list Q) i x :
  xs !! i = Some x →
  rolling agg w xs !! i =
  Some (if decide (w ≤ S i)%nat then agg (take w (drop (S i - w) xs)) else NaN).
Proof. intros H. unfold rolling. by rewrite list_lookup_imap, H. Qed.

Lemma lookup_shift1_0 (xs : list Q) x : xs !! 0%nat = Some x → shift1 xs !! 0%nat = Some NaN.
Proof. destruct xs; [done|]. by intros _. Qed.

Lemma lookup_shift1_S (xs : list Q) i x y :
  xs !! i = Some x → xs !! S i = Some y → shift1 xs !! S i = Some (Num x).
Proof.
  intros Hx Hy. unfold shift1.
  rewrite lookup_take_lt by (apply lookup_lt_Some in Hy; lia).
  simpl. by rewrite list_lookup_fmap, Hx.
Qed.

Lemma foldl_Qmin_le_init (l : list Q) (x : Q) : foldl Qmin x l <= x.
Proof.
  revert x. induction l as [|a l IH]; intros x; simpl; [lra|].
  pose proof (IH (Qmin x a)). pose proof (Q.le_min_l x a). lra.
Qed.

Lemma foldl_Qmin_le (l : list Q) (x y : Q) : y ∈ x :: l → foldl Qmin x l <= y.
Proof.
  revert x. induction l as [|a l IH]; intros x.
  - intros ->%list_elem_of_singleton. simpl. lra.
  - intros [->|[->|Hy]%elem_of_cons]%elem_of_cons; simpl.
    + pose proof (foldl_Qmin_le_init l (Qmin x a)).
      pose proof (Q.le_min_l x a). lra.
    + pose proof (foldl_Qmin_le_init l (Qmin x a)).
      pose proof (Q.le_min_r x a). lra.
    + apply IH. by right.
Qed.

Lemma foldl_Qmax_ge_init (l : list Q) (x : Q) : x <= foldl Qmax x l.
Proof.
  revert x. induction l as [|a l IH]; intros x; simpl; [lra|].
  pose proof (IH (Qmax x a)). pose proof (Q.le_max_l x a). lra.
Qed.

Lemma foldl_Qmax_ge (l : list Q) (x y : Q) : y ∈ x :: l → y <= foldl Qmax x l.
Proof.
  revert x. induction l as [|a l IH]; intros x.
  - intros ->%list_elem_of_singleton. simpl. lra.
  - intros [->|[->|Hy]%elem_of_cons]%elem_of_cons; simpl.
    + pose proof (foldl_Qmax_ge_init l (Qmax x a)).
      pose proof (Q.le_max_l x a). lra.
    + pose proof (foldl_Qmax_ge_init l (Qmax x a)).
      pose proof (Q.le_max_r x a). lra.
    + apply IH. by right.
Qed.

(** The last value of a full window is the value at the index. *)
Lemma window_last (w : nat) (xs : list Q) i x :
  (0 < w)%nat → (w ≤ S i)%nat → xs !! i = Some x →
  x ∈ take w (drop (S i - w) xs).
Proof.
  intros Hw Hi Hx. apply list_elem_of_lookup. exists (w - 1)%nat.
  rewrite lookup_take_lt by lia. rewrite lookup_drop.
  by replace (S i - w + (w - 1))%nat with i by lia.
Qed.

(** [99 * (v - min) / (max - min)] over a full window that holds [v]. *)
Lemma oscillator_range (w : nat) (xs : list Q) i v :
  (0 < w)%nat → xs !! i = Some v →
  let mn := at_index (rolling list_min w xs) i in
  let mx := at_index (rolling list_max w xs) i in
  let osc := cell_div (cell_mul (Num 99) (cell_sub (Num v) mn)) (cell_sub mx mn) in
  ((S i < w)%nat → osc = NaN) ∧
  (osc = NaN ∨ ∃ q, osc = Num q ∧ 0 <= q ∧ q <= 99).
Proof.
  intros Hw Hv mn mx osc. unfold osc, mn, mx, at_index.
  rewrite !(lookup_rolling _ _ _ _ _ Hv). simpl.
  destruct (decide (w ≤ S i)%nat) as [Hi|Hi]; [|split; [done|by left]].
  split; [lia|].
  pose proof (window_last w xs i v Hw Hi Hv) as Hin.
  destruct (take w (drop (S i - w) xs)) as [|x l]; [by apply elem_of_nil in Hin|].
  pose proof (foldl_Qmin_le l x v Hin) as Hmin.
  pose proof (foldl_Qmax_ge l x v Hin) as Hmax.
  simpl. set (m := foldl Qmin x l) in *. set (M := foldl Qmax x l) in *.
  destruct (Qeq_bool (M + - m) 0) eqn:Hz.
  - apply Qeq_bool_eq in Hz.
    assert (Qeq_bool (99 * (v + - m)) 0 = true) as ->
      by (apply Qeq_eq_bool; lra).
    by left.
  - apply Qeq_bool_neq in Hz. right. eexists. split; [done|].
    assert (0 < M + - m) as Hpos by lra. split.
    + apply Qle_shift_div_l; [done|]. lra.
    + apply Qle_shift_div_r; [done|]. lra.
Qed.

(** ** X13: the volume oscillators of [KNNStrategy] *)



(** ** X14: the features and labels of [KNNStrategy] *)

(** X14. [KNNStrategy.populate_features] drops the first 28 rows: row [i] of
    the result is row [28 + i] of the frame, with [feature_1] the mean of
    [vf, rf, cf, of] and [feature_2] the mean of [vs, rs, cs, os] (NaN
    skipped) and all the other columns but [label] as they were.  The label
    compares the close with the close of the previous row of the result: the
    first row of the result is always labelled 1, whatever the close of the
    row dropped just before it, and a later row is labelled -1 when the close
    fell from the previous row and 1 otherwise. *)
Theorem X14_knn_features_and_labels (data_frame : list KNN.row) :
  let out := KNN.populate_features data_frame in
  length out = (length data_frame - 28)%nat ∧
  (∀ i r', out !! i = Some r' →
     ∃ r, data_frame !! (28 + i)%nat = Some r ∧
          KNN.close r' = KNN.close r ∧ KNN.volume r' = KNN.volume r ∧
          KNN.indicators r' = KNN.indicators r ∧
          KNN.predicted r' = KNN.predicted r ∧ KNN.signal r' = KNN.signal r ∧
          KNN.feature_1 r' =
            nanmean [KNN.vf (KNN.indicators r); KNN.rf (KNN.indicators r);
                     KNN.cf (KNN.indicators r); KNN.of_ (KNN.indicators r)] ∧
          KNN.feature_2 r' =
            nanmean [KNN.vs (KNN.indicators r); KNN.rs (KNN.indicators r);
                     KNN.cs (KNN.indicators r); KNN.os (KNN.indicators r)]) ∧
  (∀ r', out !! 0%nat = Some r' → KNN.label r' = Some 1%Z) ∧
  (∀ i p r', out !! i = Some p → out !! S i = Some r' →
     KNN.label r' =
     Some (if Qlt_bool (KNN.close r') (KNN.close p) then (-1)%Z else 1%Z)).
Proof.
  intros out. subst out. unfold KNN.populate_features.
  set (f := λ r : KNN.row, _).
  set (final_df := drop KNN.start_up_candle_count (f <$> data_frame)).
  assert (∀ i r, final_df !! i = Some r →
            ∃ r0, data_frame !! (28 + i)%nat = Some r0 ∧ r = f r0) as Hfinal.
  { intros i r Hi. unfold final_df in Hi.
    rewrite lookup_drop, list_lookup_fmap in Hi.
    change KNN.start_up_candle_count with 28%nat in Hi.
    destruct (data_frame !! (28 + i)%nat) as [r0|]; [|done].
    injection Hi as <-. by exists r0. }
  split; [|split; [|split]].
  - rewrite length_imap. unfold final_df.
    by rewrite length_drop, length_fmap.
  - intros i r' Hi. rewrite list_lookup_imap in Hi.
    destruct (final_df !! i) as [r|] eqn:Hr; [|done].
    injection Hi as <-. destruct (Hfinal i r Hr) as (r0 & H0 & ->).
    exists r0. by repeat split.
  - intros r' Hi. rewrite list_lookup_imap in Hi.
    destruct (final_df !! 0%nat) as [r|] eqn:Hr; [|done].
    injection Hi as <-. simpl. unfold at_index.
    rewrite (lookup_shift1_0 _ (KNN.close r))
      by (by rewrite list_lookup_fmap, Hr).
    done.
  - intros i p r' Hp Hi. rewrite list_lookup_imap in Hp, Hi.
    destruct (final_df !! i) as [rp|] eqn:Hrp; [|done].
    destruct (final_df !! S i) as [r|] eqn:Hr; [|done].
    injection Hp as <-. injection Hi as <-. simpl. unfold at_index.
    rewrite (lookup_shift1_S _ i (KNN.close rp) (KNN.close r))
      by (by rewrite list_lookup_fmap, ?Hrp, ?Hr).
    done.
Qed.

Lemma X14_knn_features_and_labels_witness :
  let r := {| KNN.close := 10; KNN.high := 11; KNN.low := 9; KNN.volume := 5;
              KNN.indicators :=
                {| KNN.v_max_rolling_long := NaN; KNN.v_min_rolling_long := NaN;
                   KNN.v_max_rolling_short := NaN; KNN.v_min_rolling_short := NaN;
                   KNN.vs := Num 1; KNN.vf := Num 2; KNN.rs := NaN; KNN.rf := NaN;
                   KNN.cs := NaN; KNN.cf := NaN; KNN.os := NaN; KNN.of_ := NaN |};
              KNN.feature_1 := NaN; KNN.feature_2 := NaN;
              KNN.label := None; KNN.predicted := None; KNN.signal := None |} in
  ∃ r', KNN.populate_features (replicate 30 r) !! 0%nat = Some r' ∧
        KNN.label r' = Some 1%Z.
Proof.
  intros r. eexists. split; [vm_compute; reflexivity|].
  destruct (X14_knn_features_and_labels (replicate 30 r)) as (_ & _ & H0 & _).
  apply H0. vm_compute. reflexivity.
Defined.

(** ** X15 and X16: the signals *)

(** X15. For [KNNStrategy] (on a frame with rows), [populate_entry_signal]
    followed by [populate_exit_signal] leaves every column but [signal] as it
    is and sets [signal] from the prediction alone: ["enter_long"] where
    [predicted == 1], ["exit_long"] where [predicted == -1], and what it was
    elsewhere.  The two methods can be applied in either order, and the frame
    keeps its length. *)
Theorem X15_knn_signals (data_frame : list KNN.row) :
  data_frame ≠ [] →
  KNN.populate_exit_signal (KNN.populate_entry_signal data_frame) =
    (λ r, KNN.set_signal
            (if bool_decide (KNN.predicted r = Some 1%Z)
             then Some "enter_long"%string
             else if bool_decide (KNN.predicted r = Some (-1)%Z)
                  then Some "exit_long"%string
                  else KNN.signal r) r) <$> data_frame ∧
  KNN.populate_entry_signal (KNN.populate_exit_signal data_frame) =
    KNN.populate_exit_signal (KNN.populate_entry_signal data_frame) ∧
  length (KNN.populate_exit_signal (KNN.populate_entry_signal data_frame)) =
    length data_frame.
Proof.
  intros _. unfold KNN.populate_exit_signal, KNN.populate_entry_signal.
  rewrite <-!list_fmap_compose. split; [|split].
  - apply list_fmap_ext. intros i r _. simpl.
    destruct r as [c h l v ind f1 f2 lab p sg]. simpl.
    repeat case_bool_decide; simplify_eq; done.
  - apply list_fmap_ext. intros i r _. simpl.
    destruct r as [c h l v ind f1 f2 lab p sg]. simpl.
    repeat case_bool_decide; simplify_eq; done.
  - by rewrite length_fmap.
Qed.

Lemma cell_rising_falling (x y z : cell) :
  cell_lt x y && cell_lt y z = true → cell_gt x y && cell_gt y z = false.
Proof.
  unfold cell_gt. intros [H1 H2]%andb_true_iff.
  by rewrite (cell_lt_asym _ _ H1).
Qed.

Lemma falling_not_rising (r : KNNEMARibbon.row) :
  KNNEMARibbon.falling r = true → KNNEMARibbon.rising r = false.
Proof. apply cell_rising_falling. Qed.

(** X16. For [KNNEMARibbonStrategy] no row is both rising ([ema_1 > ema_2 >
    ema_3]) and falling ([ema_1 < ema_2 < ema_3]), so (on a frame with rows)
    [populate_exit_signal] never overwrites an ["enter_long"] written by
    [populate_entry_signal] and the two methods can be applied in either
    order.  After both, [signal] is ["exit_long"] on every falling row,
    whatever the prediction, ["enter_long"] on the rising rows with
    [predicted == 1], and what it was elsewhere; no other column changes. *)
Theorem X16_ema_signals (data_frame : list KNNEMARibbon.row) :
  data_frame ≠ [] →
  (∀ r, KNNEMARibbon.falling r && KNNEMARibbon.rising r = false) ∧
  KNNEMARibbon.populate_exit_signal
    (KNNEMARibbon.populate_entry_signal data_frame) =
    (λ r, KNNEMARibbon.set_signal
            (if KNNEMARibbon.falling r then Some "exit_long"%string
             else if bool_decide (KNNEMARibbon.predicted r = Some 1%Z)
                     && KNNEMARibbon.rising r
                  then Some "enter_long"%string
                  else KNNEMARibbon.signal r) r) <$> data_frame ∧
  KNNEMARibbon.populate_entry_signal
    (KNNEMARibbon.populate_exit_signal data_frame) =
  KNNEMARibbon.populate_exit_signal
    (KNNEMARibbon.populate_entry_signal data_frame).
Proof.
  intros _. split; [|split].
  - intros r. destruct (KNNEMARibbon.falling r) eqn:E; [|done].
    by rewrite (falling_not_rising r E).
  - unfold KNNEMARibbon.populate_exit_signal, KNNEMARibbon.populate_entry_signal.
    rewrite <-list_fmap_compose. apply list_fmap_ext. intros i r _. simpl.
    destruct r as [c e1 e2 e3 lab p sg].
    unfold KNNEMARibbon.falling, KNNEMARibbon.rising. simpl.
    destruct (cell_lt e1 e2 && cell_lt e2 e3) eqn:Hf.
    + rewrite (cell_rising_falling _ _ _ Hf), andb_false_r. simpl. by rewrite Hf.
    + destruct (bool_decide (p = Some 1%Z) && _) eqn:He; simpl; by rewrite Hf.
  - unfold KNNEMARibbon.populate_exit_signal, KNNEMARibbon.populate_entry_signal.
    rewrite <-!list_fmap_compose. apply list_fmap_ext. intros i r _. simpl.
    destruct r as [c e1 e2 e3 lab p sg].
    unfold KNNEMARibbon.falling, KNNEMARibbon.rising. simpl.
    destruct (cell_lt e1 e2 && cell_lt e2 e3) eqn:Hf; simpl.
    + rewrite (cell_rising_falling _ _ _ Hf), andb_false_r. simpl. by rewrite Hf.
    + destruct (bool_decide (p = Some 1%Z) && _) eqn:He; simpl; by rewrite Hf.
Qed.

Lemma X15_knn_signals_witness :
  let r := {| KNN.close := 10; KNN.high := 11; KNN.low := 9; KNN.volume := 5;
              KNN.indicators :=
                {| KNN.v_max_rolling_long := NaN; KNN.v_min_rolling_long := NaN;
                   KNN.v_max_rolling_short := NaN; KNN.v_min_rolling_short := NaN;
                   KNN.vs := NaN; KNN.vf := NaN; KNN.rs := NaN; KNN.rf := NaN;
                   KNN.cs := NaN; KNN.cf := NaN; KNN.os := NaN; KNN.of_ := NaN |};
              KNN.feature_1 := NaN; KNN.feature_2 := NaN;
              KNN.label := Some 1%Z; KNN.predicted := Some (-1)%Z;
              KNN.signal := None |} in
  KNN.populate_entry_signal (KNN.populate_exit_signal [r]) =
  KNN.populate_exit_signal (KNN.populate_entry_signal [r]).
Proof.
  intros r. apply (X15_knn_signals [r]). discriminate.
Defined.

Lemma X16_ema_signals_witness :
  let r := {| KNNEMARibbon.close := 10; KNNEMARibbon.ema_1 := Num 1;
              KNNEMARibbon.ema_2 := Num 2; KNNEMARibbon.ema_3 := Num 3;
              KNNEMARibbon.label := Some (-1)%Z;
              KNNEMARibbon.predicted := Some 1%Z;
              KNNEMARibbon.signal := None |} in
  KNNEMARibbon.populate_entry_signal (KNNEMARibbon.populate_exit_signal [r]) =
  KNNEMARibbon.populate_exit_signal (KNNEMARibbon.populate_entry_signal [r]).
Proof.
  intros r. apply (X16_ema_signals [r]). discriminate.
Defined.

(** ** X17: the labels of [KNNEMARibbonStrategy] and its signals *)

Lemma Forall_imap_lookup {A B : Type} (P : B → Prop) (f : nat → A → B)
    (l : list A) :
  (∀ i x, l !! i = Some x → P (f i x)) → Forall P (imap f l).
Proof.
  intros H. apply Forall_lookup. intros i y Hy.
  rewrite list_lookup_imap in Hy.
  destruct (l !! i) as [x|] eqn:E; [|done]. injection Hy as <-. by apply H.
Qed.

Lemma ema_features_row (r : KNNEMARibbon.row) :
  (λ r, if KNNEMARibbon.rising r
        then KNNEMARibbon.set_label (Some 1%Z) r else r)
    ((λ r, if KNNEMARibbon.falling r
           then KNNEMARibbon.set_label (Some (-1)%Z) r else r)
       (KNNEMARibbon.set_label (Some 0%Z) r)) =
  KNNEMARibbon.set_label
    (Some (if KNNEMARibbon.rising r then 1%Z
           else if KNNEMARibbon.falling r then (-1)%Z else 0%Z)) r.
Proof.
  destruct r as [c e1 e2 e3 lab p sg].
  unfold KNNEMARibbon.rising, KNNEMARibbon.falling. simpl.
  destruct (cell_lt e1 e2 && cell_lt e2 e3) eqn:Hf; simpl.
  - by rewrite (cell_rising_falling _ _ _ Hf).
  - by destruct (cell_gt e1 e2 && cell_gt e2 e3).
Qed.

Lemma ema_features_spec (data_frame : list KNNEMARibbon.row) :
  KNNEMARibbon.populate_features data_frame =
  (λ r, KNNEMARibbon.set_label
          (Some (if KNNEMARibbon.rising r then 1%Z
                 else if KNNEMARibbon.falling r then (-1)%Z else 0%Z)) r)
  <$> drop 30 data_frame.
Proof.
  unfold KNNEMARibbon.populate_features.
  change KNNEMARibbon.start_up_candle_count with 30%nat.
  rewrite <-!list_fmap_compose. apply list_fmap_ext.
  intros i r _. apply ema_features_row.
Qed.

(** X17. [KNNEMARibbonStrategy.populate_features] drops the first 30 rows and
    labels each remaining row 1 when the ribbon rises ([ema_1 > ema_2 >
    ema_3]), -1 when it falls and 0 otherwise, changing no other column.  When
    the frame has no signal yet, after [populate_predictions],
    [populate_entry_signal] and [populate_exit_signal] a row carries
    ["exit_long"] exactly when its label is -1, and it carries ["enter_long"]
    only when its label is 1 and the classifier predicted 1; it carries no
    other signal. *)
Theorem X17_ema_labels_and_signals (model : Classifier)
    (data_frame : list KNNEMARibbon.row) :
  let features := KNNEMARibbon.populate_features data_frame in
  length features = (length data_frame - 30)%nat ∧
  (∀ i r', features !! i = Some r' →
     ∃ r, data_frame !! (30 + i)%nat = Some r ∧
          r' = KNNEMARibbon.set_label
                 (Some (if KNNEMARibbon.rising r then 1%Z
                        else if KNNEMARibbon.falling r then (-1)%Z else 0%Z)) r) ∧
  (Forall (λ r, KNNEMARibbon.signal r = None) data_frame →
   ∀ r, r ∈ KNNEMARibbon.populate_exit_signal
              (KNNEMARibbon.populate_entry_signal
                 (KNNEMARibbon.populate_predictions model features)) →
     (KNNEMARibbon.signal r = Some "exit_long"%string ↔
      KNNEMARibbon.label r = Some (-1)%Z) ∧
     (KNNEMARibbon.signal r = Some "enter_long"%string →
      KNNEMARibbon.label r = Some 1%Z ∧ KNNEMARibbon.predicted r = Some 1%Z) ∧
     (KNNEMARibbon.signal r = None ∨
      KNNEMARibbon.signal r = Some "enter_long"%string ∨
      KNNEMARibbon.signal r = Some "exit_long"%string)).
Proof.
  intros features. subst features. rewrite ema_features_spec.
  split; [by rewrite length_fmap, length_drop|]. split.
  - intros i r' Hi. rewrite list_lookup_fmap, lookup_drop in Hi.
    destruct (data_frame !! (30 + i)%nat) as [r|]; [|done].
    injection Hi as <-. by exists r.
  - intros Hnone r Hr.
    unfold KNNEMARibbon.populate_exit_signal, KNNEMARibbon.populate_entry_signal
      in Hr.
    apply list_elem_of_fmap in Hr as (r3 & -> & Hr).
    apply list_elem_of_fmap in Hr as (r2 & -> & Hr).
    unfold KNNEMARibbon.populate_predictions in Hr.
    apply elem_of_lookup_imap in Hr as (i & r1 & -> & Hr).
    rewrite list_lookup_fmap in Hr.
    destruct (drop 30 data_frame !! i) as [r0|] eqn:H0; [|done].
    injection Hr as <-.
    assert (KNNEMARibbon.signal r0 = None) as Hsig.
    { rewrite Forall_forall in Hnone. apply Hnone.
      apply list_elem_of_lookup_2 in H0. by eapply subseteq_drop. }
    destruct r0 as [c e1 e2 e3 lab p sg]. simpl in Hsig. subst sg.
    unfold KNNEMARibbon.rising, KNNEMARibbon.falling. simpl.
    destruct (cell_lt e1 e2 && cell_lt e2 e3) eqn:Hf; simpl.
    + rewrite (cell_rising_falling _ _ _ Hf), andb_false_r. simpl.
      rewrite Hf. simpl. split; [done|]. split; [done|]. by right; right.
    + destruct (cell_gt e1 e2 && cell_gt e2 e3) eqn:Hr; simpl.
      * destruct (bool_decide (_ = Some 1%Z)) eqn:Hp; simpl; rewrite Hf; simpl.
        -- apply bool_decide_eq_true in Hp. split; [done|]. split; [done|].
           right. by left.
        -- split; [done|]. split; [done|]. by left.
      * rewrite andb_false_r. simpl. rewrite Hf. simpl.
        split; [done|]. split; [done|]. by left.
Qed.

Lemma X17_ema_labels_and_signals_witness :
  let r := {| KNNEMARibbon.close := 10; KNNEMARibbon.ema_1 := Num 3;
              KNNEMARibbon.ema_2 := Num 2; KNNEMARibbon.ema_3 := Num 1;
              KNNEMARibbon.label := None; KNNEMARibbon.predicted := None;
              KNNEMARibbon.signal := None |} in
  ∃ r', KNNEMARibbon.populate_features (replicate 31 r) !! 0%nat = Some r' ∧
        r' = KNNEMARibbon.set_label (Some 1%Z) r.
Proof.
  intros r. eexists. split; [vm_compute; reflexivity|].
  destruct (X17_ema_labels_and_signals {| predict := λ X, (λ _, 1%Z) <$> X |}
              (replicate 31 r)) as (_ & Hrow & _).
  destruct (Hrow 0%nat _ eq_refl) as (r0 & H0 & Hr).
  vm_compute in H0. injection H0 as <-. vm_compute. reflexivity.
Defined.

(** ** X18: a run whose classifier never predicts 1 *)

Lemma knn_signal_rows (ta : pandas_ta) (model : Classifier)
    (data_frame : list KNN.row) :
  Forall (λ r, KNN.signal r = None) data_frame →
  Forall (λ r, KNN.signal r = None ∧
               ∃ i X, KNN.predicted r = predict model X !! i)
    (KNN.populate_predictions model
       (KNN.populate_features (KNN.populate_indicators ta data_frame))).
Proof.
  intros Hnone.
  assert (Forall (λ r, KNN.signal r = None)
            (KNN.populate_indicators ta data_frame)) as H1.
  { apply Forall_imap_lookup. intros i r Hr. simpl.
    rewrite Forall_forall in Hnone. apply Hnone.
    by eapply list_elem_of_lookup_2. }
  assert (Forall (λ r, KNN.signal r = None)
            (KNN.populate_features (KNN.populate_indicators ta data_frame)))
    as H2.
  { unfold KNN.populate_features. apply Forall_imap_lookup.
    intros i r Hr. simpl. rewrite lookup_drop, list_lookup_fmap in Hr.
    destruct (KNN.populate_indicators ta data_frame !! _) as [r0|] eqn:E;
      [|done].
    injection Hr as <-. simpl. rewrite Forall_forall in H1. apply H1.
    by eapply list_elem_of_lookup_2. }
  unfold KNN.populate_predictions. apply Forall_imap_lookup.
  intros i r Hr. simpl. split.
  - rewrite Forall_forall in H2. apply H2. by eapply list_elem_of_lookup_2.
  - by eexists _, _.
Qed.

Lemma ema_signal_rows (ta : pandas_ta) (model : Classifier)
    (data_frame : list KNNEMARibbon.row) :
  Forall (λ r, KNNEMARibbon.signal r = None) data_frame →
  Forall (λ r, KNNEMARibbon.signal r = None ∧
               ∃ i X, KNNEMARibbon.predicted r = predict model X !! i)
    (KNNEMARibbon.populate_predictions model
       (KNNEMARibbon.populate_features
          (KNNEMARibbon.populate_indicators ta data_frame))).
Proof.
  intros Hnone.
  assert (Forall (λ r, KNNEMARibbon.signal r = None)
            (KNNEMARibbon.populate_indicators ta data_frame)) as H1.
  { apply Forall_imap_lookup. intros i r Hr. simpl.
    rewrite Forall_forall in Hnone. apply Hnone.
    by eapply list_elem_of_lookup_2. }
  assert (Forall (λ r, KNNEMARibbon.signal r = None)
            (KNNEMARibbon.populate_features
               (KNNEMARibbon.populate_indicators ta data_frame))) as H2.
  { rewrite ema_features_spec. apply Forall_fmap.
    apply Forall_drop. eapply Forall_impl; [exact H1|].
    by intros [c e1 e2 e3 lab p sg]. }
  unfold KNNEMARibbon.populate_predictions. apply Forall_imap_lookup.
  intros i r Hr. simpl. split.
  - rewrite Forall_forall in H2. apply H2. by eapply list_elem_of_lookup_2.
  - by eexists _, _.
Qed.



(** ** X19: the bars that a [KNNStrategy] run hands to the engine *)

(** The rows that reach the classifier of [KNNStrategy]. *)
Lemma knn_feature_rows (ta : pandas_ta) (data_frame : list KNN.row) :
  let features := KNN.populate_features (KNN.populate_indicators ta data_frame) in
  length features = (length data_frame - 28)%nat ∧
  ∀ i r1, features !! i = Some r1 →
    ∃ r, data_frame !! (28 + i)%nat = Some r ∧
         KNN.close r1 = KNN.close r ∧ KNN.signal r1 = KNN.signal r.
Proof.
  intros features. subst features. unfold KNN.populate_features. split.
  - rewrite length_imap, length_drop, length_fmap.
    unfold KNN.populate_indicators. by rewrite length_imap.
  - intros i r1 Hi. rewrite list_lookup_imap, lookup_drop, list_lookup_fmap in Hi.
    unfold KNN.populate_indicators in Hi. rewrite list_lookup_imap in Hi.
    change KNN.start_up_candle_count with 28%nat in Hi.
    destruct (data_frame !! (28 + i)%nat) as [r|]; [|done].
    injection Hi as <-. by exists r.
Qed.



